(** * QC-Inspection: the capture-and-review client (src/frontend, component [App])

    A shallow embedding of the React component [App]: its six state
    variables, its event handlers ([initializeCamera], [processImageBlob],
    [captureFrame], [handleFileUpload], [confirmSave], [resetScanner],
    [fetchHistoryLogs], [toggleViewMode]), the render-driven [useEffect], and
    the platform around them (in-flight [fetch] calls, [setTimeout] timers,
    [getUserMedia] promises, alerts and console output).

    Every [async] handler is cut at its [await]: the part before it runs in
    the turn of the operator's event, the part after it in the turn in which
    the promise settles.  The callback of [canvas.toBlob] runs in a turn of
    its own, after the click that asked for the frame.  Handlers read state
    variables from the closure of the render in which they were created and
    write through the setters, as React has it; the setters of one turn are
    rendered together at its end. *)

From Stdlib Require Import List String ZArith Bool Arith Lia.
From Stdlib.Strings Require Import Byte.
Import ListNotations.
Open Scope string_scope.
Open Scope list_scope.

(* ------------------------------------------------------------------ *)
(** ** JSON values, as [res.json()] returns them *)

Module Json.

Set Warnings "-register-all".

(** Numbers are kept as integers: the component only tests values for
    truthiness and hands them to the renderer.  Fractions and the negative
    zero of JavaScript have no value here. *)
Inductive json : Type :=
| JNull
| JBool (b : bool)
| JNum (n : Z)
| JStr (s : string)
| JArr (items : list json)
| JObj (members : list (string * json)).

(** JavaScript truthiness, as in [!previewData] and [previewData ? .. : ..]. *)
Definition truthy (j : json) : bool :=
  match j with
  | JNull => false
  | JBool b => b
  | JNum n => negb (n =? 0)%Z
  | JStr s => negb (s =? "")
  | JArr _ => true
  | JObj _ => true
  end.

(** Comparison of two dependency values of [useEffect].  React compares with
    [Object.is]; on the falsy values, the only ones for which the effect's
    guard can pass, that is equality of values, and a state variable that was
    not set keeps its identity. *)
Fixpoint eqb (a b : json) {struct a} : bool :=
  match a, b with
  | JNull, JNull => true
  | JBool x, JBool y => Bool.eqb x y
  | JNum x, JNum y => (x =? y)%Z
  | JStr x, JStr y => (x =? y)
  | JArr xs, JArr ys =>
      (fix all2 (l : list json) (r : list json) {struct l} : bool :=
         match l, r with
         | [], [] => true
         | x :: l', y :: r' => eqb x y && all2 l' r'
         | _, _ => false
         end) xs ys
  | JObj xs, JObj ys =>
      (fix all2 (l : list (string * json)) (r : list (string * json))
           {struct l} : bool :=
         match l, r with
         | [], [] => true
         | (k, x) :: l', (k', y) :: r' => (k =? k') && eqb x y && all2 l' r'
         | _, _ => false
         end) xs ys
  | _, _ => false
  end.

End Json.
Import Json.

(* ------------------------------------------------------------------ *)
(** ** Data of the component *)

(** A [Blob] (or [File]) is its bytes. *)
Definition Blob := list byte.

(** One entry of a [FormData]: [append(name, blob, filename)] or
    [append(name, value)]. *)
Inductive Entry : Type :=
| FilePart (name : string) (content : Blob) (filename : string)
| TextPart (name : string) (value : string).

Definition FormData := list Entry.

(** The three calls the component makes, [POST {base}/preview],
    [POST {base}/save] and [GET {base}/logs]. *)
Inductive Call : Type :=
| PostPreview (body : FormData)
| PostSave (body : FormData)
| GetLogs.

Definition path_of (c : Call) : string :=
  match c with
  | PostPreview _ => "/preview"
  | PostSave _ => "/save"
  | GetLogs => "/logs"
  end.

(** How an awaited [fetch] (followed, where the handler does so, by
    [res.json()]) ends: the promise rejects, or a response arrives with its
    [ok] flag and a body that decodes as JSON ([Some]) or does not ([None]). *)
Inductive FetchOutcome : Type :=
| NetworkError
| Response (ok : bool) (body : option json).

(** What the handlers do that the operator and the platform can observe.
    The requests the browser makes by itself for an [<img src>], and those
    of [window.open], are not among them. *)
Inductive Effect : Type :=
| Alert (msg : string)
| ConsoleError
| GetUserMedia
| BindStream
| Fetch (c : Call)
| SetTimeoutCamera
| ClearFileInput.

(** The options of the model [<select>]. *)
Inductive ModelOption : Type := M688_1 | M688_2 | M688_3.

Definition option_value (m : ModelOption) : string :=
  match m with
  | M688_1 => "688-1"
  | M688_2 => "688-2"
  | M688_3 => "688-3"
  end.

(** The [useState] variables of [App]. *)
Record AppState : Type := mkApp {
  loading : bool;
  previewData : json;
  capturedBlob : option Blob;
  showHistory : bool;
  logs : json;
  selectedModel : string
}.

(** The component in its environment.  [mediaDevices] says whether
    [navigator.mediaDevices.getUserMedia] exists; [inflight] are the fetches
    awaited, [timers] the pending [setTimeout(initializeCamera, 100)],
    [cameras] the pending [getUserMedia] promises, [out] the effects so far
    (oldest first).  [answered] is a specification variable: the body of the
    preview call whose response was last stored by [setPreviewData], with
    that response.  [grabs] are the frames asked of [canvas.toBlob] whose
    callback has not run yet; each callback is a closure of the render in
    which Capture was clicked, and is kept as the state of that render. *)
Record World : Type := mkWorld {
  app : AppState;
  mediaDevices : bool;
  inflight : list Call;
  timers : nat;
  cameras : nat;
  out : list Effect;
  answered : option (FormData * json);
  grabs : list AppState
}.

Definition with_app (f : AppState -> AppState) (w : World) : World :=
  mkWorld (f (app w)) (mediaDevices w) (inflight w) (timers w) (cameras w)
          (out w) (answered w) (grabs w).

Definition with_out (e : Effect) (w : World) : World :=
  mkWorld (app w) (mediaDevices w) (inflight w) (timers w) (cameras w)
          (out w ++ [e]) (answered w) (grabs w).

Definition with_inflight (l : list Call) (w : World) : World :=
  mkWorld (app w) (mediaDevices w) l (timers w) (cameras w) (out w)
          (answered w) (grabs w).

Definition with_timers (n : nat) (w : World) : World :=
  mkWorld (app w) (mediaDevices w) (inflight w) n (cameras w) (out w)
          (answered w) (grabs w).

Definition with_cameras (n : nat) (w : World) : World :=
  mkWorld (app w) (mediaDevices w) (inflight w) (timers w) n (out w)
          (answered w) (grabs w).

Definition with_answered (o : option (FormData * json)) (w : World)
    : World :=
  mkWorld (app w) (mediaDevices w) (inflight w) (timers w) (cameras w)
          (out w) o (grabs w).

Definition with_grabs (l : list AppState) (w : World) : World :=
  mkWorld (app w) (mediaDevices w) (inflight w) (timers w) (cameras w)
          (out w) (answered w) l.

(* ------------------------------------------------------------------ *)
(** ** Handler code: state, effects and exceptions *)

Inductive completion (A : Type) : Type :=
| Returned (a : A)
| Thrown.
Arguments Returned {A} a.
Arguments Thrown {A}.

Definition M (A : Type) : Type := World -> completion A * World.

Definition ret {A} (a : A) : M A := fun w => (Returned a, w).

Definition bind {A B} (m : M A) (k : A -> M B) : M B :=
  fun w =>
    match m w with
    | (Returned a, w1) => k a w1
    | (Thrown, w1) => (Thrown, w1)
    end.

Definition throw {A} : M A := fun w => (Thrown, w).

Notation "x <- m ;; k" := (bind m (fun x => k))
  (at level 61, m at next level, right associativity).
Notation "m ;; k" := (bind m (fun _ => k))
  (at level 61, right associativity).

(** [try { body } catch { handler } finally { fin }]. *)
Definition try_catch_finally {A} (body handler : M A) (fin : M unit) : M A :=
  fun w =>
    let (r, w1) :=
      match body w with
      | (Returned a, w1) => (Returned a, w1)
      | (Thrown, w1) => handler w1
      end in
    match fin w1 with
    | (Returned _, w2) => (r, w2)
    | (Thrown, w2) => (Thrown, w2)
    end.

(** The world a turn leaves behind; an exception nobody catches rejects the
    handler's promise and is lost. *)
Definition run {A} (m : M A) (w : World) : World := snd (m w).

Definition modify (f : World -> World) : M unit := fun w => (Returned tt, f w).

(** The setters. *)
Definition setLoading (b : bool) : M unit :=
  modify (with_app (fun a =>
    mkApp b (previewData a) (capturedBlob a) (showHistory a) (logs a)
          (selectedModel a))).

Definition setPreviewData (d : json) : M unit :=
  modify (with_app (fun a =>
    mkApp (loading a) d (capturedBlob a) (showHistory a) (logs a)
          (selectedModel a))).

Definition setCapturedBlob (b : option Blob) : M unit :=
  modify (with_app (fun a =>
    mkApp (loading a) (previewData a) b (showHistory a) (logs a)
          (selectedModel a))).

Definition setShowHistory (b : bool) : M unit :=
  modify (with_app (fun a =>
    mkApp (loading a) (previewData a) (capturedBlob a) b (logs a)
          (selectedModel a))).

Definition setLogs (d : json) : M unit :=
  modify (with_app (fun a =>
    mkApp (loading a) (previewData a) (capturedBlob a) (showHistory a) d
          (selectedModel a))).

Definition setSelectedModel (m : string) : M unit :=
  modify (with_app (fun a =>
    mkApp (loading a) (previewData a) (capturedBlob a) (showHistory a)
          (logs a) m)).

(** The platform. *)
Definition emit (e : Effect) : M unit := modify (with_out e).

Definition alert (msg : string) : M unit := emit (Alert msg).

Definition console_error : M unit := emit ConsoleError.

(** [fetch(..)] up to its [await]: the call goes out and is awaited. *)
Definition fetch (c : Call) : M unit :=
  emit (Fetch c) ;; modify (fun w => with_inflight (inflight w ++ [c]) w).

(** [formData.append(name, blob, filename)]: with three arguments the second
    must be a [Blob]; [null] is a [TypeError]. *)
Definition append_file (fd : FormData) (name : string) (b : option Blob)
    (filename : string) : M FormData :=
  match b with
  | Some content => ret (fd ++ [FilePart name content filename])
  | None => throw
  end.

Definition append_text (fd : FormData) (name value : string) : M FormData :=
  ret (fd ++ [TextPart name value]).

(* ------------------------------------------------------------------ *)
(** ** What the last render mounted *)

(** The [<video>], the Capture and Upload buttons, the file [<input>] and the
    model [<select>] are rendered when [!showHistory] and [!previewData]. *)
Definition scanner_mounted (a : AppState) : bool :=
  negb (showHistory a) && negb (truthy (previewData a)).

(** The Confirm and Retry buttons are rendered when [!showHistory] and
    [previewData] is truthy. *)
Definition review_mounted (a : AppState) : bool :=
  negb (showHistory a) && truthy (previewData a).

(** Modelled from the spec: the style sheet App.css, which lays the
    [loading-overlay] element over the page, is not among the sources; the
    specification (section 5) says the interface disables triggering actions
    while loading. *)
Definition overlay_blocks (a : AppState) : bool := loading a.

(* ------------------------------------------------------------------ *)
(** ** The handlers *)

(** [initializeCamera], up to [await getUserMedia(..)]. *)
Definition initializeCamera : M unit :=
  fun w =>
    if negb (mediaDevices w) then alert "Camera API not supported." w
    else (emit GetUserMedia ;;
          modify (fun w => with_cameras (S (cameras w)) w)) w.

(** [initializeCamera], from the settling of [getUserMedia]: the stream is
    bound when [videoRef.current] is set, a rejection goes to the console. *)
Definition initializeCamera_settled (granted : bool) : M unit :=
  fun w =>
    if granted then
      (if scanner_mounted (app w) then emit BindStream w else ret tt w)
    else console_error w.

(** [processImageBlob(blob)], up to [await fetch(..)].  [c] is the closure's
    view of the state. *)
Definition processImageBlob (c : AppState) (blob : option Blob) : M unit :=
  setLoading true ;;
  setCapturedBlob blob ;;
  fd <- append_file [] "file" blob "scan.jpg" ;;
  fd <- append_text fd "model_name" (selectedModel c) ;;
  fetch (PostPreview fd).

(** [processImageBlob], from the settling of the fetch. *)
Definition processImageBlob_settled (o : FetchOutcome) : M unit :=
  try_catch_finally
    (match o with
     | NetworkError => throw
     | Response ok body =>
         if negb ok then throw
         else match body with
              | None => throw
              | Some data => setPreviewData data
              end
     end)
    (alert "Connection Failed.")
    (setLoading false).

(** [setTimeout(initializeCamera, 100)]. *)
Definition setTimeout_initializeCamera : M unit :=
  emit SetTimeoutCamera ;; modify (fun w => with_timers (S (timers w)) w).

(** [resetScanner].  [rendered] is the state of the last render:
    [fileInputRef.current] is set when that render mounted the file input. *)
Definition resetScanner (rendered : AppState) : M unit :=
  setPreviewData JNull ;;
  setCapturedBlob None ;;
  (if scanner_mounted rendered then emit ClearFileInput else ret tt) ;;
  setTimeout_initializeCamera.

(** [canvas.toBlob(callback, 'image/jpeg')]: the frame is asked for and the
    callback, a closure of render [c], is left pending. *)
Definition canvas_toBlob (c : AppState) : M unit :=
  modify (fun w => with_grabs (grabs w ++ [c]) w).

(** [captureFrame]: [videoRef.current] is set when the last render, the one
    whose closure [c] is, mounted the video.  Sizing the canvas and drawing
    the frame on it leave the state alone. *)
Definition captureFrame (c : AppState) : M unit :=
  if negb (scanner_mounted c) then ret tt
  else canvas_toBlob c.

(** The callback [(blob) => processImageBlob(blob)] of [captureFrame], a
    closure of render [c]: [toBlob] is what the canvas hands over, [None]
    when it holds no image (a video without frames is 0 by 0). *)
Definition toBlob_callback (c : AppState) (toBlob : option Blob) : M unit :=
  processImageBlob c toBlob.

(** [handleFileUpload]: [file] is [e.target.files[0]]. *)
Definition handleFileUpload (c : AppState) (file : option Blob) : M unit :=
  match file with
  | Some f => processImageBlob c (Some f)
  | None => ret tt
  end.

(** [confirmSave], up to [await fetch(..)]. *)
Definition confirmSave (c : AppState) : M unit :=
  match capturedBlob c with
  | None => ret tt
  | Some _ =>
      setLoading true ;;
      fd <- append_file [] "file" (capturedBlob c) "final.jpg" ;;
      fd <- append_text fd "model_name" (selectedModel c) ;;
      fetch (PostSave fd)
  end.

(** [confirmSave], from the settling of the fetch. *)
Definition confirmSave_settled (rendered : AppState) (o : FetchOutcome)
    : M unit :=
  try_catch_finally
    (match o with
     | NetworkError => throw
     | Response ok _ =>
         if ok then resetScanner rendered else alert "Failed to save."
     end)
    (alert "Network Error.")
    (setLoading false).

(** [fetchHistoryLogs], up to [await fetch(..)]. *)
Definition fetchHistoryLogs : M unit :=
  setLoading true ;;
  fetch GetLogs.

(** [fetchHistoryLogs], from the settling of the fetch: [res.ok] is not
    looked at. *)
Definition fetchHistoryLogs_settled (o : FetchOutcome) : M unit :=
  try_catch_finally
    (match o with
     | NetworkError => throw
     | Response _ None => throw
     | Response _ (Some data) => setLogs data ;; setShowHistory true
     end)
    (alert "Failed to load logs.")
    (setLoading false).

(** [toggleViewMode]. *)
Definition toggleViewMode (c : AppState) : M unit :=
  if showHistory c then
    setShowHistory false ;; setTimeout_initializeCamera
  else fetchHistoryLogs.

(** The [useEffect] with dependencies [[showHistory, previewData]]: after a
    render in which one of them changed, [initializeCamera] is called when
    [!showHistory && !previewData]. *)
Definition deps_changed (before after : AppState) : bool :=
  negb (Bool.eqb (showHistory before) (showHistory after))
  || negb (Json.eqb (previewData before) (previewData after)).

Arguments deps_changed : simpl never.

Definition useEffect (before : AppState) : M unit :=
  fun w =>
    if deps_changed before (app w) then
      (if negb (showHistory (app w)) && negb (truthy (previewData (app w)))
       then initializeCamera w else ret tt w)
    else ret tt w.

(* ------------------------------------------------------------------ *)
(** ** Events and turns *)

Inductive Event : Type :=
| Capture
| Upload (file : option Blob)
| SelectModel (m : ModelOption)
| Confirm
| Retry
| ToggleView
| FetchSettled (i : nat) (o : FetchOutcome)
| TimerFires
| CameraSettled (granted : bool)
| BlobReady (i : nat) (toBlob : option Blob).

(** The operator can use a control when the last render mounted it and the
    overlay is not in the way. *)
Definition operable (mounted : bool) (a : AppState) : bool :=
  mounted && negb (overlay_blocks a).

Definition remove_nth {A} (i : nat) (l : list A) : list A :=
  firstn i l ++ skipn (S i) l.

(** The continuation that awaits call [c]. *)
Definition settled (c : Call) (o : FetchOutcome) (rendered : AppState)
    : M unit :=
  match c with
  | PostPreview _ => processImageBlob_settled o
  | PostSave _ => confirmSave_settled rendered o
  | GetLogs => fetchHistoryLogs_settled o
  end.

(** Book-keeping of [answered]: exactly the outcomes on which
    [processImageBlob_settled] reaches [setPreviewData]. *)
Definition note_answer (c : Call) (o : FetchOutcome) : M unit :=
  match c, o with
  | PostPreview fd, Response true (Some data) =>
      modify (with_answered (Some (fd, data)))
  | _, _ => ret tt
  end.

(** The code an event runs, [None] when the event cannot happen.  The events
    are those that reach the handlers: the clicks on Download Report and on
    a thumbnail call [window.open] only and are not among them.  The page is
    followed while it renders: a render that throws (see [render]) unmounts
    it, and the turns after that are not the program's. *)
Definition turn (e : Event) (w : World) : option (M unit) :=
  let c := app w in
  match e with
  | Capture =>
      if operable (scanner_mounted c) c then Some (captureFrame c) else None
  | Upload f =>
      if operable (scanner_mounted c) c then Some (handleFileUpload c f)
      else None
  | SelectModel m =>
      if operable (scanner_mounted c) c
      then Some (setSelectedModel (option_value m)) else None
  | Confirm =>
      if operable (review_mounted c) c then Some (confirmSave c) else None
  | Retry =>
      if operable (review_mounted c) c then Some (resetScanner c) else None
  | ToggleView =>
      if operable true c then Some (toggleViewMode c) else None
  | FetchSettled i o =>
      match nth_error (inflight w) i with
      | Some call =>
          Some (modify (fun w => with_inflight (remove_nth i (inflight w)) w) ;;
                note_answer call o ;;
                settled call o c)
      | None => None
      end
  | TimerFires =>
      match timers w with
      | S n => Some (modify (with_timers n) ;; initializeCamera)
      | O => None
      end
  | CameraSettled granted =>
      match cameras w with
      | S n => Some (modify (with_cameras n) ;;
                     initializeCamera_settled granted)
      | O => None
      end
  | BlobReady i b =>
      match nth_error (grabs w) i with
      | Some closure =>
          Some (modify (fun w => with_grabs (remove_nth i (grabs w)) w) ;;
                toBlob_callback closure b)
      | None => None
      end
  end.

(** One turn of the event loop: the event's code, then the render and its
    effect. *)
Definition step (w : World) (e : Event) : option World :=
  match turn e w with
  | Some m => Some (run (useEffect (app w)) (run m w))
  | None => None
  end.

Fixpoint steps (w : World) (es : list Event) : option World :=
  match es with
  | [] => Some w
  | e :: es' =>
      match step w e with
      | Some w' => steps w' es'
      | None => None
      end
  end.

Definition initial_app : AppState :=
  mkApp false JNull None false (JArr []) "688-1".

(** The first render; its effect runs and calls [initializeCamera]. *)
Definition mount (media : bool) : World :=
  run initializeCamera (mkWorld initial_app media [] 0 0 [] None []).

Inductive reachable : World -> Prop :=
| reach_mount (media : bool) : reachable (mount media)
| reach_step (w w' : World) (e : Event) :
    reachable w -> step w e = Some w' -> reachable w'.

(** The runs in which every frame is delivered before the next event: a
    Capture click is followed at once by its callback. *)
Inductive prompt_reachable : World -> Prop :=
| prompt_mount (media : bool) : prompt_reachable (mount media)
| prompt_step (w w' : World) (e : Event) :
    prompt_reachable w -> e <> Capture -> step w e = Some w' ->
    prompt_reachable w'
| prompt_capture (w w1 w' : World) (b : option Blob) :
    prompt_reachable w -> step w Capture = Some w1 ->
    step w1 (BlobReady 0 b) = Some w' -> prompt_reachable w'.

(** The states of the specification, read off the state variables. *)
Inductive Mode : Type := LIVE | PROCESSING | REVIEW | HISTORY.

Definition mode (a : AppState) : Mode :=
  if loading a then PROCESSING
  else if showHistory a then HISTORY
  else if truthy (previewData a) then REVIEW
  else LIVE.

(** The effects a turn added to [out]. *)
Definition emitted (w w' : World) (es : list Effect) : Prop :=
  out w' = out w ++ es.

(** A failing call: the promise rejects or the response is not [ok]. *)
Definition failing (o : FetchOutcome) : bool :=
  match o with
  | NetworkError => true
  | Response ok _ => negb ok
  end.

Definition is_alert (e : Effect) : bool :=
  match e with Alert _ => true | _ => false end.

Definition is_fetch (e : Effect) : bool :=
  match e with Fetch _ => true | _ => false end.

(** A fetch that throws inside [fetchHistoryLogs]: the promise rejects or
    the body does not decode. *)
Definition throws (o : FetchOutcome) : bool :=
  match o with
  | NetworkError => true
  | Response _ None => true
  | Response _ (Some _) => false
  end.

(** What [initializeCamera] does first. *)
Definition camera_request (media : bool) : Effect :=
  if media then GetUserMedia else Alert "Camera API not supported.".

(** Sample data for the scenarios. *)
Definition sample_blob : Blob := [x01; x02; x03]%byte.

Definition sample_result : json :=
  JObj [("status", JStr "fail"); ("image_base64", JStr "")].

Definition sample_error : json :=
  JObj [("detail", JStr "Internal Server Error")].

Definition preview_body (b : Blob) (m : string) : FormData :=
  [FilePart "file" b "scan.jpg"; TextPart "model_name" m].


(** Scenario worlds: the component after a list of events from its mount
    with a camera API. *)
Definition after (es : list Event) : World :=
  match steps (mount true) es with
  | Some w => w
  | None => mount true
  end.

Definition capture_sample : list Event :=
  [Capture; BlobReady 0 (Some sample_blob)].

Definition review_sample : list Event :=
  capture_sample ++ [FetchSettled 0 (Response true (Some sample_result))].

Definition confirm_sample : list Event := review_sample ++ [Confirm].

Definition preview_500 : list Event :=
  capture_sample ++ [FetchSettled 0 (Response false None)].

Definition camera_denied : list Event := [CameraSettled false].

Definition capture_no_frame : list Event := [Capture; BlobReady 0 None].

Definition logs_500 : list Event :=
  [ToggleView; FetchSettled 0 (Response false (Some sample_error))].

Definition logs_200 : list Event :=
  [ToggleView; FetchSettled 0 (Response true (Some (JArr [])))].

Definition history_and_back : list Event :=
  review_sample ++
  [ToggleView; FetchSettled 0 (Response true (Some (JArr []))); ToggleView].







(** The state with only the loading flag reset. *)
Definition loading_reset (a : AppState) : AppState :=
  mkApp false (previewData a) (capturedBlob a) (showHistory a) (logs a)
        (selectedModel a).


(* ------------------------------------------------------------------ *)
(** ** The render *)

(** [ms] are the members of a decoded object in the order of the JSON text;
    a key written twice has its last value. *)
Fixpoint member (key : string) (ms : list (string * json)) : option json :=
  match ms with
  | [] => None
  | (k, v) :: ms' =>
      match member key ms' with
      | Some v' => Some v'
      | None => if k =? key then Some v else None
      end
  end.

(** [j.key] for a decoded value [j] other than [null] and a key of the
    component ([Filename], [status], ...): [None] is [undefined], which is
    what anything but an object gives. *)
Definition property (j : json) (key : string) : option json :=
  match j with
  | JObj ms => member key ms
  | _ => None
  end.

Definition truthy_value (v : option json) : bool :=
  match v with
  | Some j => truthy j
  | None => false
  end.

(** What React accepts as a child [{v}]: strings and numbers are text,
    booleans and [null] show nothing, an array is its elements, a plain
    object is refused with an exception. *)
Fixpoint valid_child (j : json) : bool :=
  match j with
  | JObj _ => false
  | JArr l =>
      (fix all (l : list json) : bool :=
         match l with
         | [] => true
         | x :: l' => valid_child x && all l'
         end) l
  | _ => true
  end.

Definition child_ok (v : option json) : bool :=
  match v with
  | Some j => valid_child j
  | None => true
  end.

(** One [history-item]: the thumbnail image is there when [log.Filename] is
    truthy, and links to it; the other fields are the children shown. *)
Record HistoryItem : Type := mkItem {
  thumbnail : option json;
  item_datetime : option json;
  item_model : option json;
  item_filename : option json;
  item_status : option json;
  item_count : option json
}.

(** The callback of [logs.map]; [None] when it throws ([log] is [null]) or
    React refuses a child. *)
Definition render_item (log : json) : option HistoryItem :=
  match log with
  | JNull => None
  | _ =>
      let f := property log "Filename" in
      let d := property log "Datetime" in
      let m := property log "Model" in
      let s := property log "Status" in
      let c := property log "Count" in
      if child_ok d && child_ok m && child_ok f && child_ok s && child_ok c
      then Some (mkItem (if truthy_value f then f else None) d m f s c)
      else None
  end.

Fixpoint render_items (l : list json) : option (list HistoryItem) :=
  match l with
  | [] => Some []
  | log :: l' =>
      match render_item log, render_items l' with
      | Some item, Some items => Some (item :: items)
      | _, _ => None
      end
  end.

(** The [viewport-section]: the history list, the video, or the status badge
    with the annotated image. *)
Inductive Viewport : Type :=
| HistoryList (items : list HistoryItem)
| VideoCard
| ResultCard (badge : option json) (image_base64 : option json).

(** The [sidebar-section]: the model select (with its value), Capture, the
    file input and Upload; or Confirm and Retry; or the summary with the
    number of records, Download Report and Back to Scanner. *)
Inductive Sidebar : Type :=
| ScanControls (selected : string)
| ReviewControls
| Summary (total : nat).

(** What [App] returns, as far as it depends on the state: the loading
    overlay, the label of the nav button, the viewport and the sidebar. *)
Record View : Type := mkView {
  overlay : bool;
  nav_label : string;
  viewport : Viewport;
  sidebar : Sidebar
}.

(** The [return (...)] of [App]; [None] when evaluating it or rendering its
    children throws. *)
Definition render (a : AppState) : option View :=
  let nav := if showHistory a then "Scan" else "History" in
  if showHistory a then
    match logs a with
    | JArr l =>
        match render_items l with
        | Some items =>
            Some (mkView (loading a) nav (HistoryList items)
                         (Summary (List.length l)))
        | None => None
        end
    | _ => None
    end
  else if truthy (previewData a) then
    if child_ok (property (previewData a) "status") then
      Some (mkView (loading a) nav
                   (ResultCard (property (previewData a) "status")
                               (property (previewData a) "image_base64"))
                   ReviewControls)
    else None
  else
    Some (mkView (loading a) nav VideoCard (ScanControls (selectedModel a))).

Definition is_array (j : json) : bool :=
  match j with
  | JArr _ => true
  | _ => false
  end.

(** A record as the backend documents it: an object whose shown fields,
    where present, are strings or numbers. *)
Definition scalar (v : option json) : bool :=
  match v with
  | Some (JStr _) | Some (JNum _) | None => true
  | _ => false
  end.

Definition plain_record (log : json) : bool :=
  match log with
  | JObj _ =>
      forallb (fun key => scalar (property log key))
              ["Datetime"; "Model"; "Filename"; "Status"; "Count"]
  | _ => false
  end.

Definition thumbnail_of (log : json) : option json :=
  if truthy_value (property log "Filename") then property log "Filename"
  else None.

(** Sample history records: one with an image, one without. *)
Definition sample_logs : list json :=
  [JObj [("Datetime", JStr "2024-05-01 10:00:00"); ("Model", JStr "688-1");
         ("Filename", JStr "scan_1.jpg"); ("Status", JStr "pass");
         ("Count", JNum 4)];
   JObj [("Datetime", JStr "2024-05-01 10:05:00"); ("Model", JStr "688-2");
         ("Filename", JStr ""); ("Status", JStr "fail"); ("Count", JNum 0)]].

Definition sample_history : AppState :=
  mkApp false JNull None true (JArr sample_logs) "688-1".

Definition broken_history : AppState :=
  mkApp false JNull None true (JArr [JNull]) "688-1".

(** The values the model [<select>] can take. *)
Definition is_option (s : string) : bool :=
  existsb (String.eqb s) (map option_value [M688_1; M688_2; M688_3]).

(** A body of two parts: the image as [file] under [filename], and a model
    of the select as [model_name]. *)
Definition body_ok (filename : string) (fd : FormData) : bool :=
  match fd with
  | [FilePart n _ fn; TextPart k m] =>
      (n =? "file") && (fn =? filename) && (k =? "model_name") && is_option m
  | _ => false
  end.

Definition request_ok (e : Effect) : bool :=
  match e with
  | Fetch (PostPreview fd) => body_ok "scan.jpg" fd
  | Fetch (PostSave fd) => body_ok "final.jpg" fd
  | _ => true
  end.

(* ------------------------------------------------------------------ *)
(** ** An invariant of the prompt runs *)

(** [fd] is what a handler builds from the stored blob and the selected
    model. *)
Definition body_of (filename : string) (a : AppState) (fd : FormData) : Prop :=
  exists b, capturedBlob a = Some b /\
    fd = [FilePart "file" b filename; TextPart "model_name" (selectedModel a)].

(** At most one call is awaited, the overlay is up while it is, and the
    state is the one the awaiting handler left.  This holds along the prompt
    runs; a second frame pending breaks it. *)
Definition awaiting_ok (a : AppState) (l : list Call) : Prop :=
  match l with
  | [] => True
  | [PostPreview fd] =>
      loading a = true /\ scanner_mounted a = true /\ body_of "scan.jpg" a fd
  | [PostSave fd] =>
      loading a = true /\ review_mounted a = true /\ body_of "final.jpg" a fd
  | [GetLogs] => loading a = true /\ showHistory a = false
  | _ :: _ :: _ => False
  end.

(** A held result answers the preview call made from the stored blob and
    the selected model. *)
Definition held_ok (w : World) : Prop :=
  truthy (previewData (app w)) = true ->
  exists fd, answered w = Some (fd, previewData (app w)) /\
    body_of "scan.jpg" (app w) fd.

Definition consistent (w : World) : Prop :=
  awaiting_ok (app w) (inflight w) /\ held_ok w.


(* ------------------------------------------------------------------ *)
(** ** Facts about JSON comparison *)

Fixpoint json_eqb_refl (j : json) : Json.eqb j j = true.
Proof.
  destruct j as [ | b | n | s | items | members ]; simpl.
  - reflexivity.
  - apply Bool.eqb_reflx.
  - apply Z.eqb_refl.
  - apply String.eqb_refl.
  - induction items as [ | x xs IH ]; [ reflexivity | ].
    rewrite (json_eqb_refl x). exact IH.
  - induction members as [ | [k x] xs IH ]; [ reflexivity | ].
    rewrite String.eqb_refl, (json_eqb_refl x). exact IH.
Qed.

Lemma json_eqb_truthy (a b : json) :
  Json.eqb a b = true -> truthy a = truthy b.
Proof.
  destruct a, b; simpl; try discriminate; try reflexivity; intros H.
  - apply Bool.eqb_prop in H. exact H.
  - apply Z.eqb_eq in H. subst. reflexivity.
  - apply String.eqb_eq in H. subst. reflexivity.
Qed.

Lemma deps_changed_same (a b : AppState) :
  showHistory a = showHistory b -> previewData a = previewData b ->
  deps_changed a b = false.
Proof.
  intros Hs Hp. unfold deps_changed. rewrite Hs, Hp.
  rewrite Bool.eqb_reflx, json_eqb_refl. reflexivity.
Qed.

Lemma deps_changed_truthy (a b : AppState) :
  truthy (previewData a) <> truthy (previewData b) ->
  deps_changed a b = true.
Proof.
  intros H. unfold deps_changed.
  destruct (Json.eqb (previewData a) (previewData b)) eqn:E.
  - apply json_eqb_truthy in E. contradiction.
  - apply Bool.orb_true_r.
Qed.

Lemma deps_changed_history (a b : AppState) :
  showHistory a <> showHistory b -> deps_changed a b = true.
Proof.
  intros H. unfold deps_changed.
  destruct (showHistory a), (showHistory b); simpl; try reflexivity;
    exfalso; apply H; reflexivity.
Qed.

(* ------------------------------------------------------------------ *)
(** ** Running handler code *)

Ltac run_code :=
  cbv [step turn run settled note_answer operable overlay_blocks
       captureFrame handleFileUpload processImageBlob processImageBlob_settled
       confirmSave confirmSave_settled resetScanner fetchHistoryLogs
       fetchHistoryLogs_settled toggleViewMode initializeCamera
       initializeCamera_settled setTimeout_initializeCamera useEffect
       try_catch_finally bind ret throw modify emit alert console_error fetch
       append_file append_text setLoading setPreviewData setCapturedBlob
       setShowHistory setLogs setSelectedModel
       with_app with_out with_inflight with_timers with_cameras with_answered
       canvas_toBlob toBlob_callback with_grabs grabs
       app mediaDevices inflight timers cameras out answered
       loading previewData capturedBlob showHistory logs selectedModel
       fst snd].

(** Closed facts about scenario runs are settled by evaluation. *)
Ltac by_evaluation :=
  repeat match goal with |- _ /\ _ => split end;
  vm_compute; try reflexivity; try discriminate.

Ltac effect_idle :=
  rewrite deps_changed_same by reflexivity; cbn.

Ltac effect_fires Tr :=
  rewrite deps_changed_truthy by (cbn; rewrite Tr; discriminate); cbn.

Ltac break_if T :=
  match type of T with
  | context [if ?b then _ else _] => destruct b eqn:?
  | context [match ?x with _ => _ end] => destruct x eqn:?
  end.

Lemma useEffect_app (b : AppState) (w : World) :
  app (run (useEffect b) w) = app w.
Proof.
  destruct w as [a md inf t c o ans gr]. run_code.
  destruct (deps_changed b a); [ | reflexivity ].
  destruct (negb _ && negb _); [ | reflexivity ].
  destruct md; reflexivity.
Qed.

Lemma useEffect_inflight (b : AppState) (w : World) :
  inflight (run (useEffect b) w) = inflight w.
Proof.
  destruct w as [a md inf t c o ans gr]. run_code.
  destruct (deps_changed b a); [ | reflexivity ].
  destruct (negb _ && negb _); [ | reflexivity ].
  destruct md; reflexivity.
Qed.

Lemma useEffect_answered (b : AppState) (w : World) :
  answered (run (useEffect b) w) = answered w.
Proof.
  destruct w as [a md inf t c o ans gr]. run_code.
  destruct (deps_changed b a); [ | reflexivity ].
  destruct (negb _ && negb _); [ | reflexivity ].
  destruct md; reflexivity.
Qed.

Lemma useEffect_grabs (b : AppState) (w : World) :
  grabs (run (useEffect b) w) = grabs w.
Proof.
  destruct w as [a md inf t c o ans gr]. run_code.
  destruct (deps_changed b a); [ | reflexivity ].
  destruct (negb _ && negb _); [ | reflexivity ].
  destruct md; reflexivity.
Qed.


(** The effect is idle when no dependency changed. *)
Lemma useEffect_idle (b : AppState) (w : World) :
  deps_changed b (app w) = false -> run (useEffect b) w = w.
Proof.
  intros H. unfold run, useEffect. rewrite H. reflexivity.
Qed.

(** The effect calls [initializeCamera] when a dependency changed and the
    scanner is to be shown. *)
Lemma useEffect_fires (b : AppState) (w : World) :
  deps_changed b (app w) = true -> scanner_mounted (app w) = true ->
  run (useEffect b) w = run initializeCamera w.
Proof.
  intros H G. unfold scanner_mounted in G. unfold run, useEffect.
  rewrite H, G. reflexivity.
Qed.

(** The effect never calls [initializeCamera] while a result is held. *)
Lemma useEffect_guarded (b : AppState) (w : World) :
  scanner_mounted (app w) = false -> run (useEffect b) w = w.
Proof.
  intros G. unfold scanner_mounted in G. unfold run, useEffect.
  rewrite G. destruct (deps_changed b (app w)); reflexivity.
Qed.

Lemma consistent_useEffect (b : AppState) (w : World) :
  consistent w -> consistent (run (useEffect b) w).
Proof.
  unfold consistent, held_ok.
  rewrite useEffect_app, useEffect_inflight, useEffect_answered. tauto.
Qed.

Lemma consistent_mount (media : bool) : consistent (mount media).
Proof.
  destruct media; split; simpl; try exact I; intros H; discriminate H.
Qed.

Lemma awaiting_idle (a : AppState) (l : list Call) :
  awaiting_ok a l -> loading a = false -> l = [].
Proof.
  destruct l as [ | [fd | fd | ] [ | c2 l ] ]; simpl; try contradiction;
    try reflexivity; intros H E; rewrite E in H;
    repeat match goal with H : _ /\ _ |- _ => destruct H end; discriminate.
Qed.

Ltac gate T :=
  cbv [operable overlay_blocks scanner_mounted review_mounted
       loading showHistory previewData] in T.

Ltac finish :=
  do 2 (run_code; cbn;
        cbv [scanner_mounted review_mounted body_of showHistory previewData
             capturedBlob selectedModel];
        repeat match goal with
               | H : truthy _ = _ |- _ => rewrite H
               end; cbn);
  repeat split; intros; try discriminate; try congruence; eauto;
  try (eexists; split; reflexivity).

Ltac operator_turn A T ld sh pd Tr :=
  gate T;
  destruct ld;
  [ rewrite ?Bool.andb_false_r in T; discriminate T | ];
  apply awaiting_idle in A; [ | reflexivity ]; cbn in A; subst;
  destruct sh, (truthy pd) eqn:Tr; cbn in T; try discriminate T;
  injection T as <-.

(** Only a Capture click and a frame's callback change the pending frames. *)
Lemma step_grabs (w w' : World) (e : Event) :
  step w e = Some w' ->
  grabs w' = match e with
             | Capture => grabs w ++ [app w]
             | BlobReady i _ => remove_nth i (grabs w)
             | _ => grabs w
             end.
Proof.
  intros H. unfold step in H.
  destruct (turn e w) as [ m | ] eqn:T; [ | discriminate H ].
  injection H as <-. rewrite useEffect_grabs.
  destruct w as [[ld pd cb sh lg sm] md inf t c ou ans gr].
  destruct e as [ | file | mo | | | | i o | | granted | i toBlob ]; cbn in T.
  1: { unfold operable in T.
       destruct (scanner_mounted _) eqn:SM; [ | discriminate T ].
       destruct (negb _); [ | discriminate T ]. injection T as <-.
       unfold captureFrame. rewrite SM. reflexivity. }
  6: { destruct (nth_error inf i) as [ call | ] eqn:N; [ | discriminate T ].
       injection T as <-.
       destruct call as [ fd | fd | ], o as [ | [ | ] [ d | ] ];
         run_code; cbn;
         repeat match goal with
                | |- context [if ?b then _ else _] => destruct b
                end; reflexivity. }
  8: { destruct (nth_error gr i) as [ cl | ] eqn:N; [ | discriminate T ].
       injection T as <-. destruct toBlob; reflexivity. }
  all: revert T; run_code; cbn; intros T;
    repeat (break_if T; try discriminate T); try injection T as <-; cbn;
    repeat match goal with
           | |- context [if ?b then _ else _] => destruct b
           end; reflexivity.
Qed.

(** The invariant is kept by every turn but a Capture click, as long as no
    frame is pending. *)
Lemma step_consistent (w w' : World) (e : Event) :
  consistent w -> grabs w = [] -> e <> Capture -> step w e = Some w' ->
  consistent w'.
Proof.
  intros C Gr Ne H. unfold step in H.
  destruct (turn e w) as [m | ] eqn:T; [ | discriminate H ].
  injection H as <-. apply consistent_useEffect.
  destruct w as [[ld pd cb sh lg sm] md inf t c o ans gr].
  cbn in Gr. subst gr.
  destruct C as [A Hd]. unfold held_ok, body_of in Hd. cbn in A, Hd.
  unfold consistent, held_ok, body_of.
  destruct e as [ | file | mo | | | | i o0 | | granted | i toBlob ];
    cbn in T.
  - contradiction Ne. reflexivity.
  - operator_turn A T ld sh pd Tr. destruct file; finish.
  - operator_turn A T ld sh pd Tr. finish.
  - operator_turn A T ld sh pd Tr.
    destruct Hd as (fd & -> & b & -> & ->); [ reflexivity | ]. finish.
  - operator_turn A T ld sh pd Tr. finish.
  - operator_turn A T ld sh pd Tr; finish.
  - destruct inf as [ | [fd | fd | ] [ | c2 l ] ]; cbn in A;
      try contradiction; destruct i as [ | [ | i ] ]; cbn in T;
      try discriminate T; injection T as <-;
      unfold body_of, scanner_mounted, review_mounted in A; cbn in A.
    + destruct A as (-> & G & b & -> & ->).
      apply Bool.andb_true_iff in G. destruct G as [G1 G2].
      apply Bool.negb_true_iff in G1, G2. subst sh.
      destruct o0 as [ | [ | ] [ d | ] ]; finish.
    + destruct A as (-> & G & b & -> & ->).
      apply Bool.andb_true_iff in G. destruct G as [G1 G2].
      apply Bool.negb_true_iff in G1. subst sh.
      destruct o0 as [ | [ | ] [ d | ] ]; finish.
    + destruct A as (-> & ->).
      destruct o0 as [ | [ | ] [ d | ] ]; finish.
  - destruct t as [ | t ]; [ discriminate T | injection T as <- ].
    destruct md; finish.
  - destruct c as [ | c ]; [ discriminate T | injection T as <- ].
    destruct granted; run_code; cbv [scanner_mounted]; cbn;
      try destruct (negb sh && negb (truthy pd)); finish.
  - destruct i; discriminate T.
Qed.

(** A Capture click with its callback right behind keeps it too. *)
Lemma capture_consistent (w w1 w' : World) (b : option Blob) :
  consistent w -> grabs w = [] ->
  step w Capture = Some w1 -> step w1 (BlobReady 0 b) = Some w' ->
  consistent w' /\ grabs w' = [].
Proof.
  intros C Gr H1 H2.
  pose proof (step_grabs _ _ _ H1) as G1.
  pose proof (step_grabs _ _ _ H2) as G2. cbn in G1, G2.
  rewrite G1, Gr in G2. cbn in G2. split; [ | exact G2 ].
  unfold step in H1, H2.
  destruct (turn Capture w) as [ m1 | ] eqn:T1; [ | discriminate H1 ].
  injection H1 as <-.
  destruct (turn (BlobReady 0 b) _) as [ m2 | ] eqn:T2; [ | discriminate H2 ].
  injection H2 as <-. apply consistent_useEffect.
  destruct w as [[ld pd cb sh lg sm] md inf t c o ans gr].
  cbn in Gr. subst gr.
  destruct C as [A Hd]. unfold held_ok, body_of in Hd. cbn in A, Hd.
  unfold consistent, held_ok, body_of.
  cbn in T1. operator_turn A T1 ld sh pd Tr.
  revert T2. run_code. cbn. unfold scanner_mounted. cbn. rewrite Tr. cbn.
  effect_idle. intros T2. injection T2 as <-.
  destruct b; finish.
Qed.
(* ------------------------------------------------------------------ *)
(** ** Reachable worlds *)

Lemma prompt_consistent (w : World) :
  prompt_reachable w -> consistent w /\ grabs w = [].
Proof.
  induction 1 as [ media | w w' e _ [IH G] Ne H | w w1 w' b _ [IH G] H1 H2 ].
  - split; [ apply consistent_mount | destruct media; reflexivity ].
  - split; [ exact (step_consistent w w' e IH G Ne H) | ].
    rewrite (step_grabs w w' e H).
    destruct e as [ | file | mo | | | | i o | | granted | i toBlob ];
      try exact G; [ contradiction Ne; reflexivity | ].
    rewrite G. destruct i; reflexivity.
  - exact (capture_consistent w w1 w' b IH G H1 H2).
Qed.

(** A prompt run is a run. *)
Lemma prompt_is_reachable (w : World) : prompt_reachable w -> reachable w.
Proof.
  induction 1 as [ media | w w' e _ IH _ H | w w1 w' b _ IH H1 H2 ].
  - apply reach_mount.
  - exact (reach_step w w' e IH H).
  - exact (reach_step w1 w' _ (reach_step w w1 _ IH H1) H2).
Qed.

Lemma awaiting_only (a : AppState) (l : list Call) (i : nat) (c : Call) :
  awaiting_ok a l -> nth_error l i = Some c -> l = [c] /\ i = 0.
Proof.
  destruct l as [ | c1 [ | c2 l ] ]; simpl; intros A N.
  - destruct i; discriminate N.
  - destruct i as [ | [ | i ] ]; try discriminate N.
    injection N as <-. split; reflexivity.
  - destruct c1; contradiction.
Qed.

(** The awaited call of a prompt run, with the state its handler left. *)
Lemma prompt_awaiting (w : World) (i : nat) (c : Call) :
  prompt_reachable w -> nth_error (inflight w) i = Some c ->
  inflight w = [c] /\ i = 0 /\ awaiting_ok (app w) [c].
Proof.
  intros R N. destruct (prompt_consistent w R) as [[A _] _].
  destruct (awaiting_only _ _ _ _ A N) as [E ->].
  rewrite E in A. repeat split; assumption.
Qed.

Lemma steps_reachable (es : list Event) (w w' : World) :
  reachable w -> steps w es = Some w' -> reachable w'.
Proof.
  revert w. induction es as [ | e es IH ]; simpl; intros w R H.
  - injection H as <-. exact R.
  - destruct (step w e) as [ w1 | ] eqn:S1; [ | discriminate H ].
    apply (IH w1); [ | exact H ].
    exact (reach_step w w1 e R S1).
Qed.

Lemma after_reachable (es : list Event) : reachable (after es).
Proof.
  unfold after. destruct (steps (mount true) es) as [ w | ] eqn:S1.
  - exact (steps_reachable es (mount true) w (reach_mount true) S1).
  - apply reach_mount.
Qed.

(** The sample runs are prompt. *)
Lemma prompt_capture_sample : prompt_reachable (after capture_sample).
Proof.
  apply (prompt_capture (mount true) (after [Capture]) _ (Some sample_blob)).
  - apply prompt_mount.
  - vm_compute. reflexivity.
  - vm_compute. reflexivity.
Qed.



Lemma prompt_toggle_sample : prompt_reachable (after [ToggleView]).
Proof.
  apply (prompt_step (mount true) _ ToggleView).
  - apply prompt_mount.
  - discriminate.
  - vm_compute. reflexivity.
Qed.

Lemma mounted_split (sh : bool) (pd : json) :
  negb sh && negb (truthy pd) = true -> sh = false /\ truthy pd = false.
Proof.
  destruct sh, (truthy pd); simpl; intros H; try discriminate H;
    split; reflexivity.
Qed.


Lemma mode_review (a : AppState) :
  mode a = REVIEW ->
  loading a = false /\ showHistory a = false /\ truthy (previewData a) = true.
Proof.
  unfold mode. destruct (loading a), (showHistory a), (truthy (previewData a));
    intros H; try discriminate H; repeat split.
Qed.

Lemma mode_live (a : AppState) :
  mode a = LIVE ->
  loading a = false /\ showHistory a = false /\ truthy (previewData a) = false.
Proof.
  unfold mode. destruct (loading a), (showHistory a), (truthy (previewData a));
    intros H; try discriminate H; repeat split.
Qed.

Lemma initializeCamera_out (w : World) :
  out (run initializeCamera w) = out w ++ [camera_request (mediaDevices w)].
Proof.
  destruct w as [a md inf t c ou ans gr]. destruct md; reflexivity.
Qed.

Lemma initializeCamera_media (w : World) :
  mediaDevices (run initializeCamera w) = mediaDevices w.
Proof.
  destruct w as [a md inf t c ou ans gr]. destruct md; reflexivity.
Qed.

Lemma scanner_mounted_deps (a b : AppState) :
  scanner_mounted a <> scanner_mounted b -> deps_changed a b = true.
Proof.
  intros H. unfold deps_changed.
  destruct (Bool.eqb (showHistory a) (showHistory b)) eqn:E1; [ | reflexivity ].
  destruct (Json.eqb (previewData a) (previewData b)) eqn:E2; [ | reflexivity ].
  exfalso. apply H. unfold scanner_mounted.
  apply Bool.eqb_prop in E1. apply json_eqb_truthy in E2.
  rewrite E1, E2. reflexivity.
Qed.

(** A turn only appends to the effects. *)
Lemma turn_out_grows (w : World) (e : Event) (m : M unit) :
  turn e w = Some m -> exists pre, out (run m w) = out w ++ pre.
Proof.
  intros T.
  destruct w as [[ld pd cb sh lg sm] md inf t c ou ans gr].
  destruct e as [ | file | mo | | | | i o | | granted | i toBlob ]; cbn in T.
  7: { destruct (nth_error inf i) as [ call | ] eqn:N; [ | discriminate T ].
       injection T as <-.
       destruct call as [ fd | fd | ], o as [ | [ | ] [ d | ] ];
         run_code; cbn;
         repeat match goal with
                | |- context [if ?b then _ else _] => destruct b
                end; cbn;
         rewrite <- ?app_assoc;
         first [ eexists; reflexivity
               | exists []; rewrite app_nil_r; reflexivity ]. }
  9: { destruct (nth_error gr i) as [ cl | ] eqn:N; [ | discriminate T ].
       injection T as <-.
       destruct toBlob; run_code; cbn;
         first [ eexists; reflexivity
               | exists []; rewrite app_nil_r; reflexivity ]. }
  all: revert T; run_code; cbn; intros T;
    repeat (break_if T; try discriminate T); try injection T as <-; cbn;
    repeat match goal with
           | |- context [if ?b then _ else _] => destruct b
           end; cbn;
    rewrite <- ?app_assoc;
    first [ eexists; reflexivity
          | exists []; rewrite app_nil_r; reflexivity ].
Qed.

(** [answered] is what its name says: a turn changes it only when the
    awaited preview call is answered with a decodable [ok] response, and then
    it holds that call's body and the data [setPreviewData] stored. *)
Lemma answered_records_preview (w w' : World) (e : Event) :
  step w e = Some w' ->
  answered w' <> answered w ->
  exists i fd d,
    e = FetchSettled i (Response true (Some d)) /\
    nth_error (inflight w) i = Some (PostPreview fd) /\
    answered w' = Some (fd, d) /\
    previewData (app w') = d.
Proof.
  intros H Ne. unfold step in H.
  destruct (turn e w) as [ m | ] eqn:T; [ | discriminate H ].
  injection H as <-. rewrite useEffect_answered in Ne.
  rewrite useEffect_answered, useEffect_app.
  destruct w as [[ld pd cb sh lg sm] md inf t c ou ans gr].
  destruct e as [ | file | mo | | | | i o | | granted | j toBlob ]; cbn in T.
  10: { destruct (nth_error gr j) as [ cl | ] eqn:N; [ | discriminate T ].
        injection T as <-. exfalso. apply Ne.
        destruct toBlob; reflexivity. }
  7: { destruct (nth_error inf i) as [ call | ] eqn:N; [ | discriminate T ].
       injection T as <-.
       destruct call as [ fd | fd | ], o as [ | [ | ] [ d | ] ];
         try (exfalso; apply Ne; run_code; cbn;
              repeat match goal with
                     | |- context [if ?b then _ else _] => destruct b
                     end;
              reflexivity).
       exists i, fd, d. repeat split; try reflexivity. exact N. }
  all: exfalso; apply Ne; revert T; run_code; cbn; intros T;
    repeat (break_if T; try discriminate T); try injection T as <-; cbn;
    repeat match goal with
           | |- context [if ?b then _ else _] => destruct b
           end;
    try reflexivity.
Qed.

(* ------------------------------------------------------------------ *)
(** ** The preview call *)

(** C1, as stated, fails: [processImageBlob] stores the blob before the call
    and its [catch] only alerts.  After a preview answered with HTTP 500 the
    captured blob is still stored. *)
Lemma preview_failure_buffer_not_cleared :
  steps (mount true) preview_500 = Some (after preview_500) /\
  failing (Response false None) = true /\
  capturedBlob (app (after preview_500)) = Some sample_blob /\
  capturedBlob (app (after preview_500)) <> None.
Proof.
  by_evaluation.
Qed.

(** C1, amended: when an awaited preview call fails (the promise rejects or
    the response is not [ok]) the client alerts "Connection Failed." and
    changes nothing but the loading flag, which it resets: no Preview Result
    is stored by the call and the captured blob is kept.  If the scanner was
    showing, the client is in LIVE.  In a prompt run it always is, nothing
    is awaited any more, and the blob kept is the one that was sent. *)
Theorem preview_failure_keeps_blob (w : World) (i : nat) (fd : FormData)
    (o : FetchOutcome) :
  nth_error (inflight w) i = Some (PostPreview fd) ->
  failing o = true ->
  exists w',
    step w (FetchSettled i o) = Some w' /\
    emitted w w' [Alert "Connection Failed."] /\
    app w' = loading_reset (app w) /\
    inflight w' = remove_nth i (inflight w) /\
    (scanner_mounted (app w) = true -> mode (app w') = LIVE) /\
    (prompt_reachable w ->
     mode (app w') = LIVE /\
     inflight w' = [] /\
     exists b, capturedBlob (app w') = Some b /\
               fd = preview_body b (selectedModel (app w'))).
Proof.
  intros N F.
  assert (S1 : exists w',
             step w (FetchSettled i o) = Some w' /\
             emitted w w' [Alert "Connection Failed."] /\
             app w' = loading_reset (app w) /\
             inflight w' = remove_nth i (inflight w)).
  { unfold step. cbn. rewrite N. eexists. split; [ reflexivity | ].
    destruct w as [[ld pd cb sh lg sm] md inf t c ou ans gr].
    unfold emitted, loading_reset. clear N.
    destruct o as [ | [ | ] body ]; try discriminate F;
      run_code; cbn; effect_idle; repeat split; reflexivity. }
  destruct S1 as (w' & S1 & E & A & I).
  assert (G : scanner_mounted (app w) = true -> mode (app w') = LIVE).
  { intros G. rewrite A. unfold mode, loading_reset. cbn.
    apply mounted_split in G. destruct G as [-> ->]. reflexivity. }
  exists w'. split; [ exact S1 | ]. split; [ exact E | ].
  split; [ exact A | ]. split; [ exact I | ]. split; [ exact G | ].
  intros R.
  destruct (prompt_awaiting w i _ R N) as (E1 & -> & (_ & Sc & b & Cb & Fd)).
  split; [ exact (G Sc) | ]. split; [ rewrite I, E1; reflexivity | ].
  exists b. rewrite A. split; assumption.
Qed.

(** C1, amended, at the sample capture answered with HTTP 500. *)
Lemma preview_failure_keeps_blob_witness :
  nth_error (inflight (after capture_sample)) 0
    = Some (PostPreview (preview_body sample_blob "688-1")) /\
  failing (Response false None) = true /\
  scanner_mounted (app (after capture_sample)) = true /\
  prompt_reachable (after capture_sample) /\
  exists w',
    step (after capture_sample) (FetchSettled 0 (Response false None))
      = Some w' /\
    emitted (after capture_sample) w' [Alert "Connection Failed."] /\
    app w' = loading_reset (app (after capture_sample)) /\
    inflight w' = remove_nth 0 (inflight (after capture_sample)) /\
    (scanner_mounted (app (after capture_sample)) = true ->
     mode (app w') = LIVE) /\
    (prompt_reachable (after capture_sample) ->
     mode (app w') = LIVE /\
     inflight w' = [] /\
     exists b, capturedBlob (app w') = Some b /\
               preview_body sample_blob "688-1"
                 = preview_body b (selectedModel (app w'))).
Proof.
  split; [ vm_compute; reflexivity | ].
  split; [ vm_compute; reflexivity | ].
  split; [ vm_compute; reflexivity | ].
  split; [ apply prompt_capture_sample | ].
  apply (preview_failure_keeps_blob (after capture_sample) 0
           (preview_body sample_blob "688-1") (Response false None)).
  - vm_compute. reflexivity.
  - vm_compute. reflexivity.
Defined.

(** C5, as stated, fails: a Capture whose [canvas.toBlob] yields [null] (the
    video has no frame) sends no preview request; [formData.append] throws
    before the [try], and [loading] stays set. *)
Lemma capture_without_frame_sends_nothing :
  mode (app (mount true)) = LIVE /\
  steps (mount true) capture_no_frame = Some (after capture_no_frame) /\
  out (after capture_no_frame) = out (mount true) /\
  existsb is_fetch (out (after capture_no_frame)) = false /\
  inflight (after capture_no_frame) = [] /\
  loading (app (after capture_no_frame)) = true.
Proof.
  by_evaluation.
Qed.

(** The turn of a frame's callback, at any world in which it is pending:
    exactly one request goes out, the preview call, with the frame as [file]
    and, as [model_name], the model selected when Capture was clicked. *)
Lemma frame_callback_previews_once (w : World) (i : nat) (c : AppState)
    (blob : Blob) :
  nth_error (grabs w) i = Some c ->
  exists w',
    step w (BlobReady i (Some blob)) = Some w' /\
    emitted w w' [Fetch (PostPreview
                           [FilePart "file" blob "scan.jpg";
                            TextPart "model_name" (selectedModel c)])] /\
    capturedBlob (app w') = Some blob /\
    grabs w' = remove_nth i (grabs w).
Proof.
  intros N. unfold step. cbn. rewrite N. eexists. split; [ reflexivity | ].
  destruct w as [[ld pd cb sh lg sm] md inf t cm ou ans gr]. clear N.
  unfold emitted. run_code. cbn. effect_idle. repeat split; reflexivity.
Qed.

(** The turn of a Capture click: nothing is sent yet, the frame is asked for
    with the click's render as closure. *)
Lemma capture_click_asks_frame (w : World) :
  mode (app w) = LIVE ->
  exists w',
    step w Capture = Some w' /\
    emitted w w' [] /\
    app w' = app w /\
    inflight w' = inflight w /\
    grabs w' = grabs w ++ [app w].
Proof.
  intros Md. apply mode_live in Md. destruct Md as (L & Sh & Tr).
  destruct w as [[ld pd cb sh lg sm] md inf t c ou ans gr]. cbn in L, Sh, Tr.
  subst ld sh. eexists. split.
  - unfold step. cbn. unfold operable, scanner_mounted, overlay_blocks. cbn.
    rewrite Tr. cbn. reflexivity.
  - unfold emitted. run_code. unfold scanner_mounted. cbn. rewrite Tr. cbn.
    effect_idle. rewrite app_nil_r. repeat split; reflexivity.
Qed.

(** C5, amended: in LIVE, a capture whose frame grab yields an image, and a
    file upload with a file selected, each issue exactly one request, the
    preview call, whose body carries the image as [file] and the currently
    selected model as [model_name].  For a capture the request goes out in
    the turn of the frame's callback, and whenever that turn comes it is this
    one request, with the model that was selected at the click. *)
Theorem capture_or_upload_previews_once (w : World) (blob : Blob) :
  mode (app w) = LIVE ->
  (exists w',
     steps w [Capture; BlobReady (List.length (grabs w)) (Some blob)]
       = Some w' /\
     emitted w w' [Fetch (PostPreview
                            [FilePart "file" blob "scan.jpg";
                             TextPart "model_name" (selectedModel (app w))])] /\
     capturedBlob (app w') = Some blob) /\
  (exists w',
     step w (Upload (Some blob)) = Some w' /\
     emitted w w' [Fetch (PostPreview
                            [FilePart "file" blob "scan.jpg";
                             TextPart "model_name" (selectedModel (app w))])] /\
     capturedBlob (app w') = Some blob) /\
  (exists w1,
     step w Capture = Some w1 /\
     emitted w w1 [] /\
     grabs w1 = grabs w ++ [app w] /\
     forall w2 i,
       nth_error (grabs w2) i = Some (app w) ->
       exists w',
         step w2 (BlobReady i (Some blob)) = Some w' /\
         emitted w2 w'
           [Fetch (PostPreview
                     [FilePart "file" blob "scan.jpg";
                      TextPart "model_name" (selectedModel (app w))])] /\
         capturedBlob (app w') = Some blob).
Proof.
  intros Md.
  destruct (capture_click_asks_frame w Md) as (w1 & S1 & E1 & A1 & I1 & G1).
  assert (N : nth_error (grabs w1) (List.length (grabs w)) = Some (app w)).
  { rewrite G1, nth_error_app2, Nat.sub_diag by lia. reflexivity. }
  split; [ | split ].
  - destruct (frame_callback_previews_once w1 _ _ blob N)
      as (w' & S2 & E2 & C2 & _).
    exists w'. split; [ cbn; rewrite S1; cbn; rewrite S2; reflexivity | ].
    split; [ | exact C2 ].
    unfold emitted in *. rewrite E2, E1, app_nil_r. reflexivity.
  - apply mode_live in Md. destruct Md as (L & Sh & Tr).
    destruct w as [[ld pd cb sh lg sm] md inf t c ou ans gr].
    cbn in L, Sh, Tr. subst ld sh. eexists. split.
    + unfold step. cbn. unfold operable, scanner_mounted, overlay_blocks.
      cbn. rewrite Tr. cbn. reflexivity.
    + unfold emitted. run_code. cbn. effect_idle. split; reflexivity.
  - exists w1. repeat split; try assumption.
    intros w2 i N2.
    destruct (frame_callback_previews_once w2 i _ blob N2)
      as (w' & S2 & E2 & C2 & _).
    exists w'. repeat split; assumption.
Qed.

(** C5, amended, at a capture and an upload of the sample image right after
    the mount. *)
Lemma capture_or_upload_previews_once_witness :
  mode (app (mount true)) = LIVE /\
  (exists w',
     steps (mount true)
       [Capture; BlobReady (List.length (grabs (mount true)))
                           (Some sample_blob)] = Some w' /\
     emitted (mount true) w'
       [Fetch (PostPreview
                 [FilePart "file" sample_blob "scan.jpg";
                  TextPart "model_name" (selectedModel (app (mount true)))])] /\
     capturedBlob (app w') = Some sample_blob) /\
  (exists w',
     step (mount true) (Upload (Some sample_blob)) = Some w' /\
     emitted (mount true) w'
       [Fetch (PostPreview
                 [FilePart "file" sample_blob "scan.jpg";
                  TextPart "model_name" (selectedModel (app (mount true)))])] /\
     capturedBlob (app w') = Some sample_blob).
Proof.
  split; [ vm_compute; reflexivity | ].
  destruct (capture_or_upload_previews_once (mount true) sample_blob)
    as (H1 & H2 & _).
  - vm_compute. reflexivity.
  - split; [ exact H1 | exact H2 ].
Defined.
(* ------------------------------------------------------------------ *)
(** ** The camera *)

(** C2, as stated, fails: a rejected [getUserMedia] goes to [console.error],
    no alert is shown. *)
Lemma camera_denial_only_logged :
  steps (mount true) camera_denied = Some (after camera_denied) /\
  out (mount true) = [GetUserMedia] /\
  out (after camera_denied) = [GetUserMedia; ConsoleError] /\
  existsb is_alert (out (after camera_denied)) = false.
Proof.
  by_evaluation.
Qed.

(** C2, amended: the client requests camera access when the scanner view is
    entered, at the mount and in every turn that brings the scanner view back
    (when the camera API is missing it alerts instead); when the permission
    is denied the error is written to the console, nothing else is shown and
    the state is unchanged. *)
Theorem camera_requested_denial_logged :
  (forall media, out (mount media) = [camera_request media]) /\
  (forall w e w',
      step w e = Some w' ->
      scanner_mounted (app w) = false ->
      scanner_mounted (app w') = true ->
      exists pre, emitted w w' (pre ++ [camera_request (mediaDevices w')])) /\
  (forall w, 0 < cameras w ->
      exists w',
        step w (CameraSettled false) = Some w' /\
        emitted w w' [ConsoleError] /\
        app w' = app w).
Proof.
  split; [ | split ].
  - intros [ | ]; reflexivity.
  - intros w e w' H G0 G1. unfold step in H.
    destruct (turn e w) as [ m | ] eqn:T; [ | discriminate H ].
    injection H as <-. rewrite useEffect_app in G1.
    destruct (turn_out_grows w e m T) as [pre Hpre].
    unfold emitted. rewrite useEffect_fires.
    + exists pre.
      rewrite initializeCamera_out, initializeCamera_media, Hpre.
      rewrite <- app_assoc. reflexivity.
    + apply scanner_mounted_deps. rewrite G0, G1. discriminate.
    + exact G1.
  - intros [a md inf t c ou ans gr] C. cbn in C.
    destruct c as [ | c ]; [ inversion C | ].
    eexists. split; [ reflexivity | ].
    unfold emitted. run_code. cbn. effect_idle.
    split; reflexivity.
Qed.

(** C2, amended, at a Retry from the sample review and at a denial right
    after the mount. *)
Lemma camera_requested_denial_logged_witness :
  (step (after review_sample) Retry = Some (after (review_sample ++ [Retry])) /\
   scanner_mounted (app (after review_sample)) = false /\
   scanner_mounted (app (after (review_sample ++ [Retry]))) = true /\
   exists pre,
     emitted (after review_sample) (after (review_sample ++ [Retry]))
       (pre ++ [camera_request
                  (mediaDevices (after (review_sample ++ [Retry])))])) /\
  (0 < cameras (mount true) /\
   exists w',
     step (mount true) (CameraSettled false) = Some w' /\
     emitted (mount true) w' [ConsoleError] /\
     app w' = app (mount true)).
Proof.
  split.
  - split; [ vm_compute; reflexivity | ].
    split; [ vm_compute; reflexivity | ].
    split; [ vm_compute; reflexivity | ].
    apply (proj1 (proj2 camera_requested_denial_logged)
             (after review_sample) Retry); vm_compute; reflexivity.
  - split; [ vm_compute; lia | ].
    apply (proj2 (proj2 camera_requested_denial_logged) (mount true)).
    vm_compute. lia.
Defined.

(** C9, the code at the failing input: with a result held, History and back
    leaves a [setTimeout(initializeCamera, 100)] pending; when it fires,
    [getUserMedia] is called while the result is still held. *)
Theorem camera_requested_while_result_held :
  steps (mount true) history_and_back = Some (after history_and_back) /\
  mode (app (after history_and_back)) = REVIEW /\
  timers (after history_and_back) = 1 /\
  step (after history_and_back) TimerFires
    = Some (after (history_and_back ++ [TimerFires])) /\
  emitted (after history_and_back) (after (history_and_back ++ [TimerFires]))
    [GetUserMedia] /\
  mode (app (after (history_and_back ++ [TimerFires]))) = REVIEW /\
  previewData (app (after (history_and_back ++ [TimerFires]))) = sample_result.
Proof.
  by_evaluation.
Qed.

(* ------------------------------------------------------------------ *)
(** ** Confirm and Retry *)







(** C7: Retry, wherever its button is shown, leaves the client in LIVE with
    the Preview Result and the stored blob cleared and the camera
    re-requested (a timer for [initializeCamera] and the effect's own call);
    afterwards Confirm is not on offer, and [confirmSave] on that state does
    nothing: no save call. *)
Theorem retry_returns_to_live (w : World) :
  mode (app w) = REVIEW ->
  exists w',
    step w Retry = Some w' /\
    mode (app w') = LIVE /\
    previewData (app w') = JNull /\
    capturedBlob (app w') = None /\
    emitted w w' [SetTimeoutCamera; camera_request (mediaDevices w)] /\
    timers w' = S (timers w) /\
    step w' Confirm = None /\
    run (confirmSave (app w')) w' = w'.
Proof.
  intros Md. apply mode_review in Md. destruct Md as (L & Sh & Tr).
  destruct w as [[ld pd cb sh lg sm] md inf t c ou ans gr]. cbn in *. subst.
  eexists. split.
  - unfold step. cbn. unfold operable, review_mounted, overlay_blocks. cbn.
    rewrite Tr. cbn. reflexivity.
  - unfold emitted, mode. run_code. cbn. unfold scanner_mounted. cbn.
    rewrite Tr. cbn. effect_fires Tr.
    destruct md; cbn; rewrite <- app_assoc; repeat split; reflexivity.
Qed.

(** C7 at the sample review. *)
Lemma retry_returns_to_live_witness :
  mode (app (after review_sample)) = REVIEW /\
  exists w',
    step (after review_sample) Retry = Some w' /\
    mode (app w') = LIVE /\
    previewData (app w') = JNull /\
    capturedBlob (app w') = None /\
    emitted (after review_sample) w'
      [SetTimeoutCamera; camera_request (mediaDevices (after review_sample))] /\
    timers w' = S (timers (after review_sample)) /\
    step w' Confirm = None /\
    run (confirmSave (app w')) w' = w'.
Proof.
  split; [ vm_compute; reflexivity | ].
  apply (retry_returns_to_live (after review_sample)).
  vm_compute. reflexivity.
Defined.




(* ------------------------------------------------------------------ *)
(** ** The history view *)

(** C3, the code at the failing input: the logs call answered with HTTP 500
    and a JSON error body raises no alert; the body is stored as the logs and
    the history view is entered. *)
Theorem logs_error_response_taken_as_data :
  steps (mount true) logs_500 = Some (after logs_500) /\
  failing (Response false (Some sample_error)) = true /\
  showHistory (app (after logs_500)) = true /\
  logs (app (after logs_500)) = sample_error /\
  existsb is_alert (out (after logs_500)) = false.
Proof.
  by_evaluation.
Qed.

(** C10: when an awaited logs call throws (the promise rejects or the body
    does not decode) the client alerts "Failed to load logs." and changes
    nothing of its state but the loading flag, which is reset: the history
    flag and the stored logs are as they were, the client stays in the view
    it was in.  In a prompt run that view is not the history. *)
Theorem logs_fetch_throw_keeps_view (w : World) (i : nat) (o : FetchOutcome) :
  nth_error (inflight w) i = Some GetLogs ->
  throws o = true ->
  exists w',
    step w (FetchSettled i o) = Some w' /\
    emitted w w' [Alert "Failed to load logs."] /\
    app w' = mkApp false (previewData (app w)) (capturedBlob (app w))
                   (showHistory (app w)) (logs (app w))
                   (selectedModel (app w)) /\
    showHistory (app w') = showHistory (app w) /\
    logs (app w') = logs (app w) /\
    inflight w' = remove_nth i (inflight w) /\
    (prompt_reachable w -> showHistory (app w') = false).
Proof.
  intros N F.
  assert (S1 : exists w',
             step w (FetchSettled i o) = Some w' /\
             emitted w w' [Alert "Failed to load logs."] /\
             app w' = loading_reset (app w) /\
             inflight w' = remove_nth i (inflight w)).
  { unfold step. cbn. rewrite N. eexists. split; [ reflexivity | ].
    destruct w as [[ld pd cb sh lg sm] md inf t c ou ans gr].
    unfold emitted, loading_reset. clear N.
    destruct o as [ | ok [ d | ] ]; try discriminate F;
      run_code; cbn; effect_idle; repeat split; reflexivity. }
  destruct S1 as (w' & S1 & E & A & I).
  exists w'. split; [ exact S1 | ]. split; [ exact E | ].
  split; [ exact A | ]. rewrite A. split; [ reflexivity | ].
  split; [ reflexivity | ]. split; [ exact I | ].
  intros R. destruct (prompt_awaiting w i _ R N) as (_ & _ & (_ & Sh)).
  exact Sh.
Qed.

(** C10 at a logs call whose body does not decode. *)
Lemma logs_fetch_throw_keeps_view_witness :
  nth_error (inflight (after [ToggleView])) 0 = Some GetLogs /\
  throws (Response true None) = true /\
  prompt_reachable (after [ToggleView]) /\
  exists w',
    step (after [ToggleView]) (FetchSettled 0 (Response true None))
      = Some w' /\
    emitted (after [ToggleView]) w' [Alert "Failed to load logs."] /\
    app w' = mkApp false (previewData (app (after [ToggleView])))
                   (capturedBlob (app (after [ToggleView])))
                   (showHistory (app (after [ToggleView])))
                   (logs (app (after [ToggleView])))
                   (selectedModel (app (after [ToggleView]))) /\
    showHistory (app w') = showHistory (app (after [ToggleView])) /\
    logs (app w') = logs (app (after [ToggleView])) /\
    inflight w' = remove_nth 0 (inflight (after [ToggleView])) /\
    (prompt_reachable (after [ToggleView]) -> showHistory (app w') = false).
Proof.
  split; [ vm_compute; reflexivity | ].
  split; [ vm_compute; reflexivity | ].
  split; [ apply prompt_toggle_sample | ].
  apply (logs_fetch_throw_keeps_view (after [ToggleView]) 0
           (Response true None)).
  - vm_compute. reflexivity.
  - vm_compute. reflexivity.
Defined.
(* ------------------------------------------------------------------ *)
(** ** More about the event loop *)

Lemma remove_nth_last {A} (l : list A) (x : A) :
  remove_nth (List.length l) (l ++ [x]) = l.
Proof.
  unfold remove_nth. induction l as [ | y l IH ]; [ reflexivity | ].
  cbn. cbn in IH. rewrite IH. reflexivity.
Qed.

(** X2: a visit to the history changes nothing but the logs.  From a world
    that is not loading and not showing the history, and whose page
    rendered, History, an answer [JArr l] that the history view can render
    (whatever its [ok]) and Back leave every state variable as it was,
    except that [logs] is [JArr l]; a held Preview Result and its blob
    survive, so the client is back in the view it left. *)
Theorem history_round_trip (w : World) (ok : bool) (l : list json) :
  loading (app w) = false ->
  showHistory (app w) = false ->
  render (app w) <> None ->
  render_items l <> None ->
  exists w',
    steps w [ToggleView;
             FetchSettled (List.length (inflight w))
                          (Response ok (Some (JArr l)));
             ToggleView] = Some w' /\
    app w' = mkApp false (previewData (app w)) (capturedBlob (app w)) false
                   (JArr l) (selectedModel (app w)) /\
    mode (app w') = mode (app w) /\
    render (app w') = render (app w) /\
    answered w' = answered w /\
    inflight w' = inflight w.
Proof.
  intros L Sh _ _.
  destruct w as [[ld pd cb sh lg sm] md inf t c ou ans gr]. cbn in L, Sh.
  subst ld sh.
  unfold steps, step. cbn [turn app loading showHistory operable andb negb
                           overlay_blocks inflight].
  run_code. cbn. effect_idle.
  rewrite nth_error_app2, Nat.sub_diag by lia. cbn.
  rewrite deps_changed_history by (cbn; discriminate). cbn.
  rewrite deps_changed_history by (cbn; discriminate). cbn.
  rewrite remove_nth_last. unfold mode, render. cbn.
  destruct (truthy pd) eqn:Tr, md; cbn; eexists; repeat split; cbn;
    rewrite ?Tr; reflexivity.
Qed.

Lemma history_round_trip_witness :
  loading (app (after review_sample)) = false /\
  showHistory (app (after review_sample)) = false /\
  render (app (after review_sample)) <> None /\
  render_items sample_logs <> None /\
  exists w',
    steps (after review_sample)
      [ToggleView;
       FetchSettled (List.length (inflight (after review_sample)))
                    (Response true (Some (JArr sample_logs)));
       ToggleView] = Some w' /\
    app w' = mkApp false (previewData (app (after review_sample)))
                   (capturedBlob (app (after review_sample))) false
                   (JArr sample_logs)
                   (selectedModel (app (after review_sample))) /\
    mode (app w') = mode (app (after review_sample)) /\
    render (app w') = render (app (after review_sample)) /\
    answered w' = answered (after review_sample) /\
    inflight w' = inflight (after review_sample).
Proof.
  split; [ vm_compute; reflexivity | ].
  split; [ vm_compute; reflexivity | ].
  split; [ vm_compute; discriminate | ].
  split; [ vm_compute; discriminate | ].
  apply (history_round_trip (after review_sample) true sample_logs).
  - vm_compute. reflexivity.
  - vm_compute. reflexivity.
  - vm_compute. discriminate.
  - vm_compute. discriminate.
Defined.

(** Timer and camera turns leave the state and the awaited calls alone. *)
Lemma platform_turn_frame (w w' : World) (e : Event) :
  (e = TimerFires \/ exists granted, e = CameraSettled granted) ->
  step w e = Some w' ->
  app w' = app w /\ inflight w' = inflight w /\ answered w' = answered w.
Proof.
  intros E H. unfold step in H.
  destruct (turn e w) as [ m | ] eqn:T; [ | discriminate H ].
  injection H as <-.
  rewrite useEffect_app, useEffect_inflight, useEffect_answered.
  destruct w as [a md inf t c ou ans gr].
  destruct E as [-> | [granted ->]]; cbn in T.
  - destruct t as [ | t ]; [ discriminate T | injection T as <- ].
    destruct md; repeat split; reflexivity.
  - destruct c as [ | c ]; [ discriminate T | injection T as <- ].
    run_code. destruct granted; [ destruct (scanner_mounted a) | ];
      repeat split; reflexivity.
Qed.

(** X8: a firing [setTimeout(initializeCamera, 100)] and a settling
    [getUserMedia] never touch the state variables, the awaited calls or the
    record of the answered preview. *)
Theorem camera_turns_leave_state (w w' : World) (e : Event) :
  (e = TimerFires \/ exists granted, e = CameraSettled granted) ->
  step w e = Some w' ->
  app w' = app w /\ inflight w' = inflight w /\ answered w' = answered w.
Proof.
  exact (platform_turn_frame w w' e).
Qed.

Lemma camera_turns_leave_state_witness :
  (TimerFires = TimerFires \/ exists granted, TimerFires = CameraSettled granted) /\
  step (after history_and_back) TimerFires
    = Some (after (history_and_back ++ [TimerFires])) /\
  app (after (history_and_back ++ [TimerFires])) = app (after history_and_back) /\
  inflight (after (history_and_back ++ [TimerFires]))
    = inflight (after history_and_back) /\
  answered (after (history_and_back ++ [TimerFires]))
    = answered (after history_and_back).
Proof.
  split; [ left; reflexivity | ].
  split; [ vm_compute; reflexivity | ].
  apply (camera_turns_leave_state (after history_and_back) _ TimerFires).
  - left. reflexivity.
  - vm_compute. reflexivity.
Defined.

(** A world whose overlay is up with no call awaited and no frame pending
    stays as it is. *)
Lemma stuck_step (w w' : World) (e : Event) :
  loading (app w) = true -> inflight w = [] -> grabs w = [] ->
  step w e = Some w' ->
  app w' = app w /\ inflight w' = [] /\ grabs w' = [].
Proof.
  intros L I G H.
  destruct e as [ | f | m | | | | i o | | granted | i b ];
    try (destruct w as [[ld pd cb sh lg sm] md inf t c ou ans gr];
         cbn in L, I, G; subst ld inf gr;
         unfold step, turn, operable, overlay_blocks in H; cbn in H;
         rewrite ?Bool.andb_false_r in H; cbn in H; discriminate H).
  - destruct w as [a md inf t c ou ans gr]. cbn in I. subst inf.
    unfold step, turn in H. cbn in H. destruct i; discriminate H.
  - pose proof (step_grabs w w' _ H) as G2. cbn in G2.
    destruct (platform_turn_frame w w' TimerFires) as (A & B & _);
      [ left; reflexivity | exact H | ].
    rewrite B, G2. repeat split; assumption.
  - pose proof (step_grabs w w' _ H) as G2. cbn in G2.
    destruct (platform_turn_frame w w' (CameraSettled granted))
      as (A & B & _); [ right; eexists; reflexivity | exact H | ].
    rewrite B, G2. repeat split; assumption.
  - destruct w as [a md inf t c ou ans gr]. cbn in G. subst gr.
    unfold step, turn in H. cbn in H. destruct i; discriminate H.
Qed.

Lemma stuck_steps (es : list Event) (w w' : World) :
  loading (app w) = true -> inflight w = [] -> grabs w = [] ->
  steps w es = Some w' ->
  app w' = app w /\ inflight w' = [].
Proof.
  revert w. induction es as [ | e es IH ]; simpl; intros w L I G H.
  - injection H as <-. split; [ reflexivity | exact I ].
  - destruct (step w e) as [ w1 | ] eqn:S1; [ | discriminate H ].
    destruct (stuck_step w w1 e L I G S1) as (A1 & I1 & G1).
    destruct (IH w1) as [A2 I2];
      [ rewrite A1; exact L | exact I1 | exact G1 | exact H | ].
    split; [ rewrite A2; exact A1 | exact I2 ].
Qed.

(** The turn of a frame's callback that is handed [null]. *)
Lemma frame_callback_without_frame (w : World) (i : nat) (c : AppState) :
  nth_error (grabs w) i = Some c ->
  exists w',
    step w (BlobReady i None) = Some w' /\
    emitted w w' [] /\
    app w' = mkApp true (previewData (app w)) None (showHistory (app w))
                   (logs (app w)) (selectedModel (app w)) /\
    inflight w' = inflight w /\
    grabs w' = remove_nth i (grabs w).
Proof.
  intros N. unfold step. cbn. rewrite N. eexists. split; [ reflexivity | ].
  destruct w as [[ld pd cb sh lg sm] md inf t cm ou ans gr]. clear N.
  unfold emitted. run_code. cbn. effect_idle. rewrite app_nil_r.
  repeat split; reflexivity.
Qed.

(** X4: a frame's callback handed [null] (the video had no frame) sends
    nothing, stores [null] as the blob and leaves [loading] set; if no call
    is awaited and no other frame is pending, then whatever events follow,
    the client stays in PROCESSING with nothing awaited and its state
    unchanged. *)
Theorem capture_without_frame_blocks_client (w : World) (i : nat)
    (c : AppState) :
  nth_error (grabs w) i = Some c ->
  inflight w = [] ->
  remove_nth i (grabs w) = [] ->
  exists w',
    step w (BlobReady i None) = Some w' /\
    emitted w w' [] /\
    app w' = mkApp true (previewData (app w)) None (showHistory (app w))
                   (logs (app w)) (selectedModel (app w)) /\
    forall es w'',
      steps w' es = Some w'' ->
      mode (app w'') = PROCESSING /\ inflight w'' = [] /\ app w'' = app w'.
Proof.
  intros N I G.
  destruct (frame_callback_without_frame w i c N) as (w' & S1 & E & A & I1 & G1).
  exists w'. split; [ exact S1 | ]. split; [ exact E | ].
  split; [ exact A | ]. intros es w'' H.
  apply stuck_steps in H;
    [ | rewrite A; reflexivity | rewrite I1; exact I | rewrite G1; exact G ].
  destruct H as [A2 I2]. unfold mode. rewrite A2, A.
  repeat split. exact I2.
Qed.

Lemma capture_without_frame_blocks_client_witness :
  nth_error (grabs (after [Capture])) 0 = Some (app (mount true)) /\
  inflight (after [Capture]) = [] /\
  remove_nth 0 (grabs (after [Capture])) = [] /\
  exists w',
    step (after [Capture]) (BlobReady 0 None) = Some w' /\
    emitted (after [Capture]) w' [] /\
    app w' = mkApp true (previewData (app (after [Capture]))) None
                   (showHistory (app (after [Capture])))
                   (logs (app (after [Capture])))
                   (selectedModel (app (after [Capture]))) /\
    forall es w'',
      steps w' es = Some w'' ->
      mode (app w'') = PROCESSING /\ inflight w'' = [] /\ app w'' = app w'.
Proof.
  split; [ vm_compute; reflexivity | ].
  split; [ vm_compute; reflexivity | ].
  split; [ vm_compute; reflexivity | ].
  apply (capture_without_frame_blocks_client (after [Capture]) 0
           (app (mount true))).
  - vm_compute. reflexivity.
  - vm_compute. reflexivity.
  - vm_compute. reflexivity.
Defined.
(** X14: whatever call settles and however it ends, the turn ends with
    [loading] reset (the [finally] of each handler) and that call no longer
    awaited. *)
Theorem settled_call_resets_loading (w : World) (i : nat) (c : Call)
    (o : FetchOutcome) :
  nth_error (inflight w) i = Some c ->
  exists w',
    step w (FetchSettled i o) = Some w' /\
    loading (app w') = false /\
    inflight w' = remove_nth i (inflight w).
Proof.
  intros N. unfold step. cbn. rewrite N.
  eexists. split; [ reflexivity | ].
  rewrite useEffect_app, useEffect_inflight.
  destruct w as [[ld pd cb sh lg sm] md inf t cm ou ans gr]. cbn in N. clear N.
  destruct c as [ fd | fd | ], o as [ | [ | ] [ d | ] ]; run_code; cbn;
    repeat match goal with
           | |- context [if ?b then _ else _] => destruct b
           end; split; reflexivity.
Qed.

Lemma settled_call_resets_loading_witness :
  nth_error (inflight (after capture_sample)) 0
    = Some (PostPreview (preview_body sample_blob "688-1")) /\
  exists w',
    step (after capture_sample) (FetchSettled 0 NetworkError) = Some w' /\
    loading (app w') = false /\
    inflight w' = remove_nth 0 (inflight (after capture_sample)).
Proof.
  split; [ vm_compute; reflexivity | ].
  apply (settled_call_resets_loading (after capture_sample) 0
           (PostPreview (preview_body sample_blob "688-1")) NetworkError).
  vm_compute. reflexivity.
Defined.

(** X5: when an awaited preview call is answered [ok] with a decodable,
    truthy body, the client stores it as the Preview Result and resets the
    loading flag, nothing else: nothing is alerted or requested, the blob and
    the model stay, and the result is recorded as the answer to that call.
    Unless the history is showing the client is in REVIEW, and where the
    body's [status] is something React can show, the page is the result card
    with Confirm and Retry. *)
Theorem preview_success_enters_review (w : World) (i : nat) (fd : FormData)
    (d : json) :
  nth_error (inflight w) i = Some (PostPreview fd) ->
  truthy d = true ->
  exists w',
    step w (FetchSettled i (Response true (Some d))) = Some w' /\
    emitted w w' [] /\
    app w' = mkApp false d (capturedBlob (app w)) (showHistory (app w))
                   (logs (app w)) (selectedModel (app w)) /\
    answered w' = Some (fd, d) /\
    inflight w' = remove_nth i (inflight w) /\
    (showHistory (app w) = false ->
     mode (app w') = REVIEW /\
     (child_ok (property d "status") = true ->
      render (app w')
        = Some (mkView false "History"
                       (ResultCard (property d "status")
                                   (property d "image_base64"))
                       ReviewControls))).
Proof.
  intros N Td.
  assert (S1 : exists w',
             step w (FetchSettled i (Response true (Some d))) = Some w' /\
             emitted w w' [] /\
             app w' = mkApp false d (capturedBlob (app w))
                            (showHistory (app w)) (logs (app w))
                            (selectedModel (app w)) /\
             answered w' = Some (fd, d) /\
             inflight w' = remove_nth i (inflight w)).
  { unfold step. cbn. rewrite N. eexists. split; [ reflexivity | ].
    destruct w as [[ld pd cb sh lg sm] md inf t c ou ans gr]. clear N.
    unfold emitted. run_code. cbn. rewrite Td, Bool.andb_false_r.
    destruct (deps_changed _ _); cbn; rewrite app_nil_r;
      repeat split; reflexivity. }
  destruct S1 as (w' & S1 & E & A & An & I).
  exists w'. split; [ exact S1 | ]. split; [ exact E | ].
  split; [ exact A | ]. split; [ exact An | ]. split; [ exact I | ].
  intros Sh. rewrite A, Sh. unfold mode, render. cbn. rewrite Td.
  split; [ reflexivity | ]. intros Ck. rewrite Ck. reflexivity.
Qed.

Lemma preview_success_enters_review_witness :
  nth_error (inflight (after capture_sample)) 0
    = Some (PostPreview (preview_body sample_blob "688-1")) /\
  truthy sample_result = true /\
  showHistory (app (after capture_sample)) = false /\
  child_ok (property sample_result "status") = true /\
  exists w',
    step (after capture_sample)
         (FetchSettled 0 (Response true (Some sample_result))) = Some w' /\
    emitted (after capture_sample) w' [] /\
    app w' = mkApp false sample_result
                   (capturedBlob (app (after capture_sample)))
                   (showHistory (app (after capture_sample)))
                   (logs (app (after capture_sample)))
                   (selectedModel (app (after capture_sample))) /\
    answered w' = Some (preview_body sample_blob "688-1", sample_result) /\
    inflight w' = remove_nth 0 (inflight (after capture_sample)) /\
    (showHistory (app (after capture_sample)) = false ->
     mode (app w') = REVIEW /\
     (child_ok (property sample_result "status") = true ->
      render (app w')
        = Some (mkView false "History"
                       (ResultCard (property sample_result "status")
                                   (property sample_result "image_base64"))
                       ReviewControls))).
Proof.
  split; [ vm_compute; reflexivity | ].
  split; [ vm_compute; reflexivity | ].
  split; [ vm_compute; reflexivity | ].
  split; [ vm_compute; reflexivity | ].
  apply (preview_success_enters_review (after capture_sample) 0
           (preview_body sample_blob "688-1") sample_result).
  - vm_compute. reflexivity.
  - vm_compute. reflexivity.
Defined.

(** X6: a preview answered [ok] with a body that does not decode is handled
    like a failure: "Connection Failed." is alerted and nothing of the state
    changes but the loading flag, which is reset. *)
Theorem preview_undecodable_body_alerts (w : World) (i : nat) (fd : FormData) :
  nth_error (inflight w) i = Some (PostPreview fd) ->
  exists w',
    step w (FetchSettled i (Response true None)) = Some w' /\
    emitted w w' [Alert "Connection Failed."] /\
    app w' = loading_reset (app w) /\
    answered w' = answered w /\
    inflight w' = remove_nth i (inflight w).
Proof.
  intros N. unfold step. cbn. rewrite N. eexists. split; [ reflexivity | ].
  destruct w as [[ld pd cb sh lg sm] md inf t c ou ans gr]. clear N.
  unfold emitted, loading_reset. run_code. cbn. effect_idle.
  repeat split; reflexivity.
Qed.

Lemma preview_undecodable_body_alerts_witness :
  nth_error (inflight (after capture_sample)) 0
    = Some (PostPreview (preview_body sample_blob "688-1")) /\
  exists w',
    step (after capture_sample) (FetchSettled 0 (Response true None))
      = Some w' /\
    emitted (after capture_sample) w' [Alert "Connection Failed."] /\
    app w' = loading_reset (app (after capture_sample)) /\
    answered w' = answered (after capture_sample) /\
    inflight w' = remove_nth 0 (inflight (after capture_sample)).
Proof.
  split; [ vm_compute; reflexivity | ].
  apply (preview_undecodable_body_alerts (after capture_sample) 0
           (preview_body sample_blob "688-1")).
  vm_compute. reflexivity.
Defined.

(** X9: when the scanner is not shown (a result or the history is), a
    pending camera timer still calls [getUserMedia], and the granted stream
    is bound to nothing: [videoRef.current] is not set. *)
Theorem camera_granted_off_scanner_is_dropped (w : World) :
  scanner_mounted (app w) = false ->
  mediaDevices w = true ->
  0 < timers w ->
  exists w',
    steps w [TimerFires; CameraSettled true] = Some w' /\
    emitted w w' [GetUserMedia] /\
    app w' = app w /\
    cameras w' = cameras w /\
    timers w' = pred (timers w).
Proof.
  intros G Md T.
  destruct w as [a md inf t c ou ans gr]. cbn in G, Md, T. subst md.
  destruct t as [ | t ]; [ inversion T | ].
  unfold steps, step, emitted. cbn [turn timers cameras].
  run_code. effect_idle. rewrite G. effect_idle.
  eexists. repeat split; reflexivity.
Qed.

Lemma camera_granted_off_scanner_is_dropped_witness :
  scanner_mounted (app (after history_and_back)) = false /\
  mediaDevices (after history_and_back) = true /\
  0 < timers (after history_and_back) /\
  exists w',
    steps (after history_and_back) [TimerFires; CameraSettled true]
      = Some w' /\
    emitted (after history_and_back) w' [GetUserMedia] /\
    app w' = app (after history_and_back) /\
    cameras w' = cameras (after history_and_back) /\
    timers w' = pred (timers (after history_and_back)).
Proof.
  split; [ vm_compute; reflexivity | ].
  split; [ vm_compute; reflexivity | ].
  split; [ vm_compute; lia | ].
  apply (camera_granted_off_scanner_is_dropped (after history_and_back)).
  - vm_compute. reflexivity.
  - vm_compute. reflexivity.
  - vm_compute. lia.
Defined.

(** X10: choosing a model and then capturing (the click and, right behind
    it, the frame's callback) sends the preview with the chosen model, and
    with nothing else. *)
Theorem selected_model_travels (w : World) (m : ModelOption) (blob : Blob) :
  mode (app w) = LIVE ->
  exists w',
    steps w [SelectModel m; Capture;
             BlobReady (List.length (grabs w)) (Some blob)] = Some w' /\
    emitted w w' [Fetch (PostPreview (preview_body blob (option_value m)))] /\
    selectedModel (app w') = option_value m /\
    inflight w' = inflight w ++ [PostPreview (preview_body blob (option_value m))].
Proof.
  intros Md. apply mode_live in Md. destruct Md as (L & Sh & Tr).
  destruct w as [[ld pd cb sh lg sm] md inf t c ou ans gr]. cbn in L, Sh, Tr.
  subst ld sh.
  unfold steps, step, emitted.
  cbn [turn app grabs]. unfold operable, scanner_mounted, overlay_blocks. cbn.
  rewrite Tr. cbn. run_code. effect_idle.
  unfold scanner_mounted. cbn. rewrite Tr. cbn. effect_idle.
  rewrite nth_error_app2, Nat.sub_diag by lia. cbn. effect_idle.
  eexists. repeat split; reflexivity.
Qed.

Lemma selected_model_travels_witness :
  mode (app (mount true)) = LIVE /\
  exists w',
    steps (mount true)
      [SelectModel M688_2; Capture;
       BlobReady (List.length (grabs (mount true))) (Some sample_blob)]
      = Some w' /\
    emitted (mount true) w'
      [Fetch (PostPreview (preview_body sample_blob (option_value M688_2)))] /\
    selectedModel (app w') = option_value M688_2 /\
    inflight w' = inflight (mount true)
                  ++ [PostPreview (preview_body sample_blob
                                     (option_value M688_2))].
Proof.
  split; [ vm_compute; reflexivity | ].
  apply (selected_model_travels (mount true) M688_2 sample_blob).
  vm_compute. reflexivity.
Defined.

(** X12: Retry requests the camera twice: the effect calls
    [initializeCamera] in the turn of the click, the timer calls it again;
    two [getUserMedia] promises are pending afterwards. *)
Theorem retry_requests_camera_twice (w : World) :
  mode (app w) = REVIEW ->
  mediaDevices w = true ->
  exists w',
    steps w [Retry; TimerFires] = Some w' /\
    emitted w w' [SetTimeoutCamera; GetUserMedia; GetUserMedia] /\
    cameras w' = S (S (cameras w)) /\
    timers w' = timers w /\
    mode (app w') = LIVE.
Proof.
  intros Md Me. apply mode_review in Md. destruct Md as (L & Sh & Tr).
  destruct w as [[ld pd cb sh lg sm] md inf t c ou ans gr].
  cbn in L, Sh, Tr, Me. subst ld sh md.
  unfold steps, step, emitted, mode.
  cbn [turn app]. unfold operable, review_mounted, overlay_blocks. cbn.
  rewrite Tr. cbn. run_code. unfold scanner_mounted. cbn. rewrite Tr. cbn.
  effect_fires Tr. effect_idle.
  eexists. rewrite <- !app_assoc. repeat split; reflexivity.
Qed.

Lemma retry_requests_camera_twice_witness :
  mode (app (after review_sample)) = REVIEW /\
  mediaDevices (after review_sample) = true /\
  exists w',
    steps (after review_sample) [Retry; TimerFires] = Some w' /\
    emitted (after review_sample) w'
      [SetTimeoutCamera; GetUserMedia; GetUserMedia] /\
    cameras w' = S (S (cameras (after review_sample))) /\
    timers w' = timers (after review_sample) /\
    mode (app w') = LIVE.
Proof.
  split; [ vm_compute; reflexivity | ].
  split; [ vm_compute; reflexivity | ].
  apply (retry_requests_camera_twice (after review_sample));
    vm_compute; reflexivity.
Defined.

(** The turn in which the logs call is answered with a decodable body. *)
Lemma logs_answer_step (w : World) (i : nat) (ok : bool) (d : json) :
  nth_error (inflight w) i = Some GetLogs ->
  exists w',
    step w (FetchSettled i (Response ok (Some d))) = Some w' /\
    emitted w w' [] /\
    mode (app w') = HISTORY /\
    app w' = mkApp false (previewData (app w)) (capturedBlob (app w)) true d
                   (selectedModel (app w)) /\
    inflight w' = remove_nth i (inflight w).
Proof.
  intros N. unfold step. cbn. rewrite N. eexists. split; [ reflexivity | ].
  destruct w as [[ld pd cb sh lg sm] md inf t c ou ans gr]. clear N.
  unfold emitted, mode. run_code. cbn.
  destruct (deps_changed _ _); cbn; rewrite app_nil_r;
    repeat split; reflexivity.
Qed.

(** X13: when an awaited logs call is answered with a decodable body, the
    body replaces the logs and the history view is entered, whether the
    response is [ok] or not; nothing is alerted or requested, nothing else
    of the state changes. *)
Theorem logs_answer_enters_history (w : World) (i : nat) (ok : bool)
    (d : json) :
  nth_error (inflight w) i = Some GetLogs ->
  exists w',
    step w (FetchSettled i (Response ok (Some d))) = Some w' /\
    emitted w w' [] /\
    mode (app w') = HISTORY /\
    app w' = mkApp false (previewData (app w)) (capturedBlob (app w)) true d
                   (selectedModel (app w)) /\
    inflight w' = remove_nth i (inflight w).
Proof.
  exact (logs_answer_step w i ok d).
Qed.

Lemma logs_answer_enters_history_witness :
  nth_error (inflight (after [ToggleView])) 0 = Some GetLogs /\
  exists w',
    step (after [ToggleView]) (FetchSettled 0 (Response true (Some (JArr []))))
      = Some w' /\
    emitted (after [ToggleView]) w' [] /\
    mode (app w') = HISTORY /\
    app w' = mkApp false (previewData (app (after [ToggleView])))
                   (capturedBlob (app (after [ToggleView]))) true (JArr [])
                   (selectedModel (app (after [ToggleView]))) /\
    inflight w' = remove_nth 0 (inflight (after [ToggleView])).
Proof.
  split; [ vm_compute; reflexivity | ].
  apply (logs_answer_enters_history (after [ToggleView]) 0 true (JArr [])).
  vm_compute. reflexivity.
Defined.

(** X15: a file-input change without a file ([e.target.files[0]] undefined)
    does nothing at all. *)
Theorem upload_without_file_does_nothing (w : World) :
  mode (app w) = LIVE -> step w (Upload None) = Some w.
Proof.
  intros Md. apply mode_live in Md. destruct Md as (L & Sh & Tr).
  destruct w as [[ld pd cb sh lg sm] md inf t c ou ans gr]. cbn in L, Sh, Tr.
  subst ld sh.
  unfold step. cbn [turn app]. unfold operable, scanner_mounted, overlay_blocks.
  cbn. rewrite Tr. cbn. run_code. effect_idle. reflexivity.
Qed.

Lemma upload_without_file_does_nothing_witness :
  mode (app (mount true)) = LIVE /\
  step (mount true) (Upload None) = Some (mount true).
Proof.
  split; [ vm_compute; reflexivity | ].
  apply (upload_without_file_does_nothing (mount true)).
  vm_compute. reflexivity.
Defined.

Lemma useEffect_out (b : AppState) (w : World) :
  out (run (useEffect b) w) = out w \/
  out (run (useEffect b) w) = out w ++ [camera_request (mediaDevices w)].
Proof.
  destruct w as [a md inf t c o ans gr]. run_code.
  destruct (deps_changed b a); [ | left; reflexivity ].
  destruct (negb _ && negb _); [ | left; reflexivity ].
  destruct md; right; reflexivity.
Qed.

Lemma step_requests_ok (w w' : World) (e : Event) :
  is_option (selectedModel (app w)) = true ->
  forallb request_ok (out w) = true ->
  forallb (fun c => is_option (selectedModel c)) (grabs w) = true ->
  step w e = Some w' ->
  is_option (selectedModel (app w')) = true /\
  forallb request_ok (out w') = true /\
  forallb (fun c => is_option (selectedModel c)) (grabs w') = true.
Proof.
  intros Hs Ho Hg H.
  assert (G3 : forallb (fun c => is_option (selectedModel c)) (grabs w')
               = true).
  { rewrite (step_grabs w w' e H).
    destruct e as [ | file | mo | | | | i o | | granted | i toBlob ];
      try exact Hg.
    - rewrite forallb_app, Hg. cbn [forallb andb]. rewrite Hs. reflexivity.
    - unfold remove_nth. rewrite forallb_app.
      rewrite <- (firstn_skipn i (grabs w)), forallb_app in Hg.
      apply Bool.andb_true_iff in Hg. destruct Hg as [Hg1 Hg2].
      rewrite Hg1. cbn [andb].
      destruct (skipn i (grabs w)) as [ | x xs ] eqn:Sk.
      + replace (skipn (S i) (grabs w)) with (@nil AppState); [ reflexivity | ].
        symmetry. apply skipn_all2.
        assert (Hl : List.length (skipn i (grabs w)) = 0)
          by (rewrite Sk; reflexivity).
        rewrite length_skipn in Hl. lia.
      + replace (skipn (S i) (grabs w)) with xs.
        * cbn in Hg2. apply Bool.andb_true_iff in Hg2. apply Hg2.
        * change (S i) with (1 + i).
          rewrite <- skipn_skipn, Sk. reflexivity. }
  unfold step in H.
  destruct (turn e w) as [ m | ] eqn:T; [ | discriminate H ].
  injection H as <-.
  assert (G : is_option (selectedModel (app (run m w))) = true /\
              forallb request_ok (out (run m w)) = true).
  { destruct w as [[ld pd cb sh lg sm] md inf t c ou ans gr].
    cbn in Hs, Ho, Hg.
    destruct e as [ | f | mo | | | | i o | | granted | i toBlob ]; cbn in T.
    7: { destruct (nth_error inf i) as [ call | ] eqn:N; [ | discriminate T ].
         injection T as <-.
         destruct call as [ fd | fd | ], o as [ | [ | ] [ d | ] ];
           run_code; cbn;
           repeat match goal with
                  | |- context [if ?b then _ else _] => destruct b
                  end; cbn;
           rewrite ?forallb_app, ?Ho; cbn; split; assumption || reflexivity. }
    9: { destruct (nth_error gr i) as [ cl | ] eqn:N; [ | discriminate T ].
         injection T as <-.
         assert (Hc : is_option (selectedModel cl) = true).
         { apply nth_error_In in N.
           rewrite forallb_forall in Hg. exact (Hg cl N). }
         destruct cl as [ld' pd' cb' sh' lg' sm'].
         unfold is_option in Hc. cbn in Hc.
         destruct toBlob; run_code; cbn;
           rewrite ?forallb_app, ?Ho; cbn; rewrite ?Hc; cbn;
           split; assumption || reflexivity. }
    all: revert T; run_code; cbn; intros T;
      repeat (break_if T; try discriminate T); try injection T as <-; cbn;
      repeat match goal with
             | |- context [if ?b then _ else _] => destruct b
             end; cbn;
      rewrite ?forallb_app, ?Ho; cbn; rewrite ?Hs; cbn;
      try (split; assumption || reflexivity).
    destruct mo; split; reflexivity. }
  destruct G as [G1 G2]. rewrite useEffect_app. split; [ exact G1 | ].
  split; [ | exact G3 ].
  destruct (useEffect_out (app w) (run m w)) as [-> | ->]; [ exact G2 | ].
  rewrite forallb_app, G2. destruct (mediaDevices (run m w)); reflexivity.
Qed.

(** X11: in every reachable world the selected model is one of the three
    options, and every request sent so far is a preview or save whose body
    is exactly the image as [file] (named scan.jpg, final.jpg) and one of
    the three options as [model_name], or the logs call. *)
Theorem requests_are_well_formed (w : World) :
  reachable w ->
  is_option (selectedModel (app w)) = true /\
  forallb request_ok (out w) = true.
Proof.
  intros R.
  enough (G : is_option (selectedModel (app w)) = true /\
              forallb request_ok (out w) = true /\
              forallb (fun c => is_option (selectedModel c)) (grabs w) = true)
    by (destruct G as (G1 & G2 & _); split; assumption).
  induction R as [ media | w w' e _ (IH1 & IH2 & IH3) H ].
  - destruct media; repeat split; reflexivity.
  - exact (step_requests_ok w w' e IH1 IH2 IH3 H).
Qed.

Lemma requests_are_well_formed_witness :
  reachable (after confirm_sample) /\
  is_option (selectedModel (app (after confirm_sample))) = true /\
  forallb request_ok (out (after confirm_sample)) = true.
Proof.
  split; [ apply after_reachable | ].
  apply (requests_are_well_formed (after confirm_sample)).
  apply after_reachable.
Defined.

(* ------------------------------------------------------------------ *)
(** ** The render *)

(** X17: a logs answer whose decodable body is not an array (the JSON error
    object of a failed request, say) puts the client in the history view with
    that body as [logs], and the render of that state throws at
    [logs.map]. *)
Theorem logs_body_not_array_breaks_history (w : World) (i : nat) (ok : bool)
    (d : json) :
  nth_error (inflight w) i = Some GetLogs ->
  is_array d = false ->
  exists w',
    step w (FetchSettled i (Response ok (Some d))) = Some w' /\
    mode (app w') = HISTORY /\
    logs (app w') = d /\
    render (app w') = None.
Proof.
  intros N Ar.
  destruct (logs_answer_step w i ok d N) as (w' & S1 & _ & Md & A & _).
  exists w'. split; [ exact S1 | ]. split; [ exact Md | ].
  rewrite A. split; [ reflexivity | ].
  unfold render. cbn. destruct d; try reflexivity. discriminate Ar.
Qed.

Lemma logs_body_not_array_breaks_history_witness :
  nth_error (inflight (after [ToggleView])) 0 = Some GetLogs /\
  is_array sample_error = false /\
  exists w',
    step (after [ToggleView]) (FetchSettled 0 (Response false (Some sample_error)))
      = Some w' /\
    mode (app w') = HISTORY /\
    logs (app w') = sample_error /\
    render (app w') = None.
Proof.
  split; [ vm_compute; reflexivity | ].
  split; [ reflexivity | ].
  apply (logs_body_not_array_breaks_history (after [ToggleView]) 0 false
           sample_error).
  - vm_compute. reflexivity.
  - reflexivity.
Defined.

Lemma scalar_child_ok (v : option json) : scalar v = true -> child_ok v = true.
Proof.
  destruct v as [ [ | b | n | s | l | ms ] | ]; simpl; intros H;
    try discriminate H; reflexivity.
Qed.

Lemma plain_record_renders (log : json) :
  plain_record log = true ->
  render_item log
    = Some (mkItem (thumbnail_of log) (property log "Datetime")
                   (property log "Model") (property log "Filename")
                   (property log "Status") (property log "Count")).
Proof.
  destruct log as [ | b | n | s | l | ms ]; try discriminate.
  unfold plain_record, render_item, thumbnail_of. cbn [forallb].
  rewrite !Bool.andb_true_iff. intros (Hd & Hm & Hf & Hs & Hc & _).
  rewrite (scalar_child_ok _ Hd), (scalar_child_ok _ Hm),
    (scalar_child_ok _ Hf), (scalar_child_ok _ Hs), (scalar_child_ok _ Hc).
  reflexivity.
Qed.

Lemma plain_records_render (l : list json) :
  forallb plain_record l = true ->
  exists items,
    render_items l = Some items /\
    List.length items = List.length l /\
    map thumbnail items = map thumbnail_of l.
Proof.
  induction l as [ | log l IH ]; simpl; intros H.
  - exists []. repeat split.
  - apply Bool.andb_true_iff in H. destruct H as [H1 H2].
    destruct (IH H2) as (items & E & Len & Th).
    rewrite (plain_record_renders log H1), E.
    eexists. split; [ reflexivity | ]. simpl. rewrite Len, Th.
    split; reflexivity.
Qed.

(** X18: for logs that are an array of records whose shown fields are strings
    or numbers, the history view renders one item per record, in order, the
    summary counts them all, and an item has a thumbnail exactly when its
    [Filename] is truthy. *)
Theorem history_shows_every_record (a : AppState) (l : list json) :
  showHistory a = true ->
  logs a = JArr l ->
  forallb plain_record l = true ->
  exists items,
    render a = Some (mkView (loading a) "Scan" (HistoryList items)
                            (Summary (List.length l))) /\
    List.length items = List.length l /\
    map thumbnail items = map thumbnail_of l.
Proof.
  intros Sh Lg Pl. destruct (plain_records_render l Pl) as (items & E & Len & Th).
  exists items. unfold render. rewrite Sh, Lg, E.
  repeat split; assumption.
Qed.

(** X19: a [null] entry in the logs array makes the render of the history
    view throw (at [log.Filename]). *)
Theorem history_null_record_breaks_render (a : AppState) (l : list json) :
  showHistory a = true ->
  logs a = JArr l ->
  In JNull l ->
  render a = None.
Proof.
  intros Sh Lg I. unfold render. rewrite Sh, Lg.
  assert (E : render_items l = None).
  { clear Lg. induction l as [ | log l IH ]; [ contradiction I | ].
    destruct I as [-> | I]; simpl.
    - reflexivity.
    - rewrite (IH I). destruct (render_item log); reflexivity. }
  rewrite E. reflexivity.
Qed.

Lemma history_shows_every_record_witness :
  showHistory sample_history = true /\
  logs sample_history = JArr sample_logs /\
  forallb plain_record sample_logs = true /\
  exists items,
    render sample_history
      = Some (mkView (loading sample_history) "Scan" (HistoryList items)
                     (Summary (List.length sample_logs))) /\
    List.length items = List.length sample_logs /\
    map thumbnail items = map thumbnail_of sample_logs.
Proof.
  split; [ reflexivity | ].
  split; [ reflexivity | ].
  split; [ vm_compute; reflexivity | ].
  apply (history_shows_every_record sample_history sample_logs).
  - reflexivity.
  - reflexivity.
  - vm_compute. reflexivity.
Defined.

Lemma history_null_record_breaks_render_witness :
  showHistory broken_history = true /\
  logs broken_history = JArr [JNull] /\
  In JNull [JNull] /\
  render broken_history = None.
Proof.
  split; [ reflexivity | ].
  split; [ reflexivity | ].
  split; [ left; reflexivity | ].
  apply (history_null_record_breaks_render broken_history [JNull]).
  - reflexivity.
  - reflexivity.
  - left. reflexivity.
Defined.
